(** * SOUN cycle bot: a shallow embedding of [soun_bot.py]

    The bot keeps its ledger in a Python dict ([self.data]), mirrored in the
    file [soun_cycle_data.json].  Each call of [run] reads the balance and the
    quote, applies the daily gate, and then either buys one share or makes a
    dollar-cost-average buy.  The embedding follows the script method by
    method: the dict is a [gmap string pyval], Python floats are IEEE binary64
    numbers ([PrimFloat.float]), and the methods live in a state-and-exception
    monad whose state also holds the data file, the printed lines and the
    orders handed to the broker.

    Outside the model: the file is taken to be writable ([save_data] does not
    raise), a file that parses holds a JSON object, the fields hold JSON
    scalars, and [KeyboardInterrupt] never comes. *)

From Stdlib Require Import ZArith Lia List.
From Stdlib Require Import Floats.PrimFloat Floats.SpecFloat.
From Stdlib Require Floats.FloatOps Floats.FloatAxioms.
From stdpp Require Import base strings gmap fin_maps.

Set Default Proof Using "Type".
Local Open Scope Z_scope.

(** ** Python values *)

(** The values [json.load] yields at the fields of the record, and the values
    the script itself stores: [None], [bool], [int], [float] and [str]. *)
Inductive pyval : Type :=
| PNone
| PBool (b : bool)
| PInt (z : Z)
| PFloat (f : float)
| PStr (s : string).

(** The exceptions the modelled code can raise.  [APIError] stands for
    whatever [submit_order], [get_account] or [get_latest_quote] raise
    (a rejected order, a transport error). *)
Inductive exn : Type :=
| KeyError (key : string)
| TypeError
| ValueError
| ZeroDivisionError
| OverflowError
| APIError (reason : string).

Inductive outcome (A : Type) : Type :=
| Returns (a : A)
| Raises (e : exn).
Arguments Returns {A} a.
Arguments Raises {A} e.

Definition obind {A B} (o : outcome A) (k : A -> outcome B) : outcome B :=
  match o with
  | Returns a => k a
  | Raises e => Raises e
  end.

(** ** Python arithmetic on the values above *)

Module Py.

(** [bool] is a subclass of [int]; [None] and [str] are not numbers. *)
Inductive num : Type :=
| NInt (z : Z)
| NFloat (f : float).

Definition as_num (v : pyval) : option num :=
  match v with
  | PBool b => Some (NInt (if b then 1 else 0))
  | PInt z => Some (NInt z)
  | PFloat f => Some (NFloat f)
  | PNone | PStr _ => None
  end.

Definition is_inf (f : float) : bool :=
  (f =? infinity)%float || (f =? neg_infinity)%float.

(** [float(z)]: round to nearest, ties to even; [OverflowError] when the
    integer is too large for a double. *)
Definition float_of_int (z : Z) : outcome float :=
  let f := FloatOps.SF2Prim (binary_normalize FloatOps.prec FloatOps.emax z 0 false) in
  if is_inf f then Raises OverflowError else Returns f.

Definition to_float (n : num) : outcome float :=
  match n with
  | NInt z => float_of_int z
  | NFloat f => Returns f
  end.

(** Exact comparison of a double with an integer, as [float.__lt__] and its
    siblings do it; [None] when the double is a NaN. *)
Definition cmp_float_int (f : float) (z : Z) : option comparison :=
  match FloatOps.Prim2SF f with
  | S754_nan => None
  | S754_infinity s => Some (if s then Lt else Gt)
  | S754_zero _ => Some (0 ?= z)
  | S754_finite s m e =>
      let n := cond_Zopp s (Zpos m) in
      Some (if 0 <=? e then (n * 2 ^ e ?= z) else (n ?= z * 2 ^ (- e)))
  end.

Definition num_lt (x y : num) : bool :=
  match x, y with
  | NInt a, NInt b => a <? b
  | NFloat a, NFloat b => (a <? b)%float
  | NFloat a, NInt b =>
      match cmp_float_int a b with Some Lt => true | _ => false end
  | NInt a, NFloat b =>
      match cmp_float_int b a with Some Gt => true | _ => false end
  end.

Definition num_le (x y : num) : bool :=
  match x, y with
  | NInt a, NInt b => a <=? b
  | NFloat a, NFloat b => (a <=? b)%float
  | NFloat a, NInt b =>
      match cmp_float_int a b with Some Lt | Some Eq => true | _ => false end
  | NInt a, NFloat b =>
      match cmp_float_int b a with Some Gt | Some Eq => true | _ => false end
  end.

Definition compare_with (rel : num -> num -> bool) (a b : pyval) : outcome bool :=
  match as_num a, as_num b with
  | Some x, Some y => Returns (rel x y)
  | _, _ => Raises TypeError
  end.

(** [a < b], [a > b], [a >= b] with a number on one side. *)
Definition lt : pyval -> pyval -> outcome bool := compare_with num_lt.
Definition gt (a b : pyval) : outcome bool := compare_with num_lt b a.
Definition ge (a b : pyval) : outcome bool := compare_with num_le b a.

Definition arith (fz : Z -> Z -> Z) (ff : float -> float -> float)
    (a b : pyval) : outcome pyval :=
  match as_num a, as_num b with
  | Some (NInt x), Some (NInt y) => Returns (PInt (fz x y))
  | Some x, Some y =>
      obind (to_float x) (fun fx =>
      obind (to_float y) (fun fy => Returns (PFloat (ff fx fy))))
  | _, _ => Raises TypeError
  end.

(** [a + b], [a - b], [a * b] with a number on the right. *)
Definition add : pyval -> pyval -> outcome pyval := arith Z.add PrimFloat.add.
Definition sub : pyval -> pyval -> outcome pyval := arith Z.sub PrimFloat.sub.
Definition mul : pyval -> pyval -> outcome pyval := arith Z.mul PrimFloat.mul.

Definition int_sf (z : Z) : spec_float :=
  match z with
  | Z0 => S754_zero false
  | Zpos m => S754_finite false m 0
  | Zneg m => S754_finite true m 0
  end.

(** [a / b] (true division).  A zero divisor raises; two integers give the
    correctly rounded quotient, or [OverflowError] beyond the doubles. *)
Definition truediv (a b : pyval) : outcome pyval :=
  match as_num a, as_num b with
  | Some (NInt x), Some (NInt y) =>
      if y =? 0 then Raises ZeroDivisionError
      else
        let q := FloatOps.SF2Prim
                   (SFdiv FloatOps.prec FloatOps.emax (int_sf x) (int_sf y)) in
        if is_inf q then Raises OverflowError else Returns (PFloat q)
  | Some x, Some y =>
      obind (to_float x) (fun fx =>
      obind (to_float y) (fun fy =>
        if (fy =? 0)%float then Raises ZeroDivisionError
        else Returns (PFloat (fx / fy)%float)))
  | _, _ => Raises TypeError
  end.

(** Truth value, as [not v] and [if v] take it. *)
Definition truthy (v : pyval) : bool :=
  match v with
  | PNone => false
  | PBool b => b
  | PInt z => negb (z =? 0)
  | PFloat f => negb (f =? 0)%float
  | PStr s => negb (String.eqb s "")
  end.

(** [v != s] for a string [s]: values of other types are never equal to it. *)
Definition ne_str (v : pyval) (s : string) : bool :=
  match v with
  | PStr t => negb (String.eqb t s)
  | _ => true
  end.

(** [format(v, ".2f")] and the other [f] format specs of the script: fine on
    numbers, [TypeError] on [None], [ValueError] on a string. *)
Definition format_f (v : pyval) : outcome unit :=
  match v with
  | PNone => Raises TypeError
  | PStr _ => Raises ValueError
  | PBool _ => Returns tt
  | PInt z => obind (float_of_int z) (fun _ => Returns tt)
  | PFloat _ => Returns tt
  end.

End Py.

(** ** The world of the bot *)

(** The argument of [api.submit_order]. *)
Record order : Type := {
  o_symbol : string;
  o_qty : pyval;
  o_side : string;
  o_type : string;
  o_time_in_force : string
}.

(** [soun_cycle_data.json] as [__init__] finds it: absent ([open] raises),
    not JSON ([json.load] raises), or the object that [save_data] wrote. *)
Inductive storage : Type :=
| NoFile
| NotJson
| JsonObject (d : gmap string pyval).

(** The lines the script prints, one constructor per [print] call, with the
    values the line formats. *)
Inductive line : Type :=
| LRunning | LRule
| LBalance (balance : float)
| LQuote (price : float)
| LTradeMsg (limit_reached : bool) (trades : pyval)
| LLimitStop
| LCycleBuy
| LNoFundsUnit | LNeedUnit (price : float) | LHaveUnit (balance : float)
| LCycleWait (last_price : pyval)
| LPriceDropped (price : float) (last_price : pyval)
| LCycleReset
| LNoFundsDca | LNeedDca (amount : float) | LHaveDca (balance : float)
| LWaiting (price : float) (last_price : pyval)
| LNoAction
| LPosition
| LShares (v : pyval) | LInvested (v : pyval) | LAvgCost (v : pyval)
| LValue (v : pyval) | LPnl (v pct : pyval)
| LNextDca (last_price : pyval) | LNextBuy
| LBuying (price : float)
| LSingleOrder (id : string)
| LSingleBought (price : float)
| LSingleWaitBelow (price : float)
| LSingleFailed (e : exn)
| LDcaBuy (shares price : float)
| LDcaOrder (id : string)
| LDcaComplete (shares price : float)
| LDcaFailed (e : exn)
| LWaitMinute
| LError (e : exn)
| LRetrying
| LStopping | LStopNeed (amount : float) | LStopHave (balance : float)
| LStopAdd (amount : float) | LStopUntilFunds.

(** What one call of [run] meets outside the process: the calendar date of
    [datetime.now()], the buying power of the account, the market clock, the
    quote, and the broker's answer to an order. *)
Record quote : Type := { ask_price : float; bid_price : float }.

Record world : Type := {
  today : string;
  get_account : outcome float;
  get_clock : outcome bool;
  get_latest_quote : outcome quote;
  submit_order : order -> outcome string
}.

(** The state the methods act on: the dict [self.data], the data file, the
    printed lines (latest last) and the orders submitted (latest last). *)
Record bot : Type := {
  data : gmap string pyval;
  file : storage;
  stdout : list line;
  orders : list order
}.

Definition set_data (d : gmap string pyval) (b : bot) : bot :=
  {| data := d; file := file b; stdout := stdout b; orders := orders b |}.

Definition set_file (f : storage) (b : bot) : bot :=
  {| data := data b; file := f; stdout := stdout b; orders := orders b |}.

Definition add_line (l : line) (b : bot) : bot :=
  {| data := data b; file := file b;
     stdout := stdout b ++ [l]; orders := orders b |}.

Definition add_order (o : order) (b : bot) : bot :=
  {| data := data b; file := file b;
     stdout := stdout b; orders := orders b ++ [o] |}.

(** ** The monad of the methods *)

Definition M (A : Type) : Type := bot -> outcome A * bot.

Definition ret {A} (a : A) : M A := fun b => (Returns a, b).
Definition raise {A} (e : exn) : M A := fun b => (Raises e, b).

Definition bind {A B} (m : M A) (k : A -> M B) : M B :=
  fun b =>
    match m b with
    | (Returns a, b') => k a b'
    | (Raises e, b') => (Raises e, b')
    end.

Notation "'let*' x ':=' m 'in' k" := (bind m (fun x => k))
  (at level 10, x pattern, m at level 100, k at level 200).
Notation "m ';;' k" := (bind m (fun _ => k))
  (at level 100, k at level 200, right associativity).

(** [try: body except Exception as e: handler e]: the handler starts from the
    state the body left behind. *)
Definition try_except {A} (body : M A) (handler : exn -> M A) : M A :=
  fun b =>
    match body b with
    | (Returns a, b') => (Returns a, b')
    | (Raises e, b') => handler e b'
    end.

Definition lift {A} (o : outcome A) : M A := fun b => (o, b).

Definition print (l : line) : M unit :=
  fun b => (Returns tt, add_line l b).

(** [self.data[key]] *)
Definition getitem (key : string) : M pyval :=
  fun b =>
    match data b !! key with
    | Some v => (Returns v, b)
    | None => (Raises (KeyError key), b)
    end.

(** [self.data[key] = v] *)
Definition setitem (key : string) (v : pyval) : M unit :=
  fun b => (Returns tt, set_data (<[key := v]> (data b)) b).

(** [self.data[key] += v] *)
Definition iadd (key : string) (v : pyval) : M unit :=
  let* old := getitem key in
  let* new := lift (Py.add old v) in
  setitem key new.

(** [self.api.submit_order(...)]: the order reaches the broker, which answers
    with an order id or raises. *)
Definition api_submit_order (w : world) (o : order) : M string :=
  fun b => (submit_order w o, add_order o b).

(** ** The methods of [SOUNCycleBot] *)

Definition symbol : string := "SOUN".
Definition dca_amount : float := 20.0%float.

Definition zero_state : gmap string pyval :=
  <["last_single_share_price" := PNone]>
  (<["total_invested" := PFloat 0.0%float]>
  (<["total_shares" := PFloat 0.0%float]>
  (<["waiting_for_dca" := PBool false]>
  (<["trades_today" := PInt 0]>
  (<["last_trade_date" := PNone]> ∅))))).

(** [if key not in self.data: self.data[key] = v] *)
Definition setdefault (key : string) (v : pyval) (d : gmap string pyval) :
    gmap string pyval :=
  match d !! key with
  | Some _ => d
  | None => <[key := v]> d
  end.

(** The part of [__init__] that loads the saved data. *)
Definition load_data (f : storage) : gmap string pyval :=
  match f with
  | JsonObject d =>
      setdefault "last_trade_date" PNone (setdefault "trades_today" (PInt 0) d)
  | NoFile | NotJson => zero_state
  end.

Definition __init__ (f : storage) : bot :=
  {| data := load_data f; file := f; stdout := []; orders := [] |}.

(** [json.dump(self.data, f)] over the old file. *)
Definition save_data : M unit :=
  fun b => (Returns tt, set_file (JsonObject (data b)) b).

Definition check_daily_trade_limit (w : world) : M (bool * line) :=
  let* last := getitem "last_trade_date" in
  (if Py.ne_str last (today w)
   then setitem "trades_today" (PInt 0);;
        setitem "last_trade_date" (PStr (today w));;
        save_data
   else ret tt);;
  let* trades := getitem "trades_today" in
  let* reached := lift (Py.ge trades (PInt 2)) in
  if reached
  then let* n := getitem "trades_today" in ret (false, LTradeMsg true n)
  else let* n := getitem "trades_today" in ret (true, LTradeMsg false n).

Definition record_trade : M unit :=
  iadd "trades_today" (PInt 1);;
  save_data.

Definition get_balance (w : world) : M float := lift (get_account w).

(** Not called by [run]. *)
Definition has_sufficient_funds (balance needed_amount : float) : M bool :=
  if (needed_amount <=? balance)%float then ret true
  else print LStopping;;
       print (LStopNeed needed_amount);;
       print (LStopHave balance);;
       print (LStopAdd (needed_amount - balance)%float);;
       print LStopUntilFunds;;
       ret false.

(** Not called by [run]. *)
Definition is_market_open (w : world) : M bool :=
  try_except (lift (get_clock w)) (fun _ => ret false).

(** [quote.ask_price or quote.bid_price] *)
Definition ask_or_bid (q : quote) : float :=
  if Py.truthy (PFloat (ask_price q)) then ask_price q else bid_price q.

Definition get_price (w : world) : M float :=
  let* q := lift (get_latest_quote w) in
  ret (ask_or_bid q).

(** The order of [buy_single_share], and the order of [dca_buy] for a
    quantity [shares]. *)
Definition single_share_order : order :=
  {| o_symbol := symbol; o_qty := PInt 1; o_side := "buy";
     o_type := "market"; o_time_in_force := "day" |}.

Definition dca_order (shares : float) : order :=
  {| o_symbol := symbol; o_qty := PFloat shares; o_side := "buy";
     o_type := "market"; o_time_in_force := "day" |}.

Definition buy_single_share (w : world) (current_price : float) : M bool :=
  print (LBuying current_price);;
  try_except
    (let* id := api_submit_order w single_share_order in
     print (LSingleOrder id);;
     setitem "last_single_share_price" (PFloat current_price);;
     iadd "total_invested" (PFloat current_price);;
     iadd "total_shares" (PFloat 1.0%float);;
     setitem "waiting_for_dca" (PBool true);;
     record_trade;;
     save_data;;
     print (LSingleBought current_price);;
     print (LSingleWaitBelow current_price);;
     ret true)
    (fun e => print (LSingleFailed e);; ret false).

Definition dca_buy (w : world) (current_price : float) : M bool :=
  let* shares :=
    (if (current_price =? 0)%float then raise ZeroDivisionError
     else ret (dca_amount / current_price)%float) in
  print (LDcaBuy shares current_price);;
  try_except
    (let* id := api_submit_order w (dca_order shares) in
     print (LDcaOrder id);;
     iadd "total_invested" (PFloat dca_amount);;
     iadd "total_shares" (PFloat shares);;
     record_trade;;
     save_data;;
     print (LDcaComplete shares current_price);;
     ret true)
    (fun e => print (LDcaFailed e);; ret false).

(** A [print] of an f-string whose fields [vs] carry an [f] format spec: the
    fields are formatted first, and a field that cannot be formatted raises
    before anything is printed. *)
Definition printf (vs : list pyval) (l : line) : M unit :=
  foldr (fun v k => lift (Py.format_f v);; k) (print l) vs.

(** The "Show position" block that ends [run]. *)
Definition show_position (current_price : float) : M unit :=
  let* total_shares := getitem "total_shares" in
  let* held := lift (Py.gt total_shares (PInt 0)) in
  if held then
    let* shares := getitem "total_shares" in
    let* current_value := lift (Py.mul shares (PFloat current_price)) in
    let* invested := getitem "total_invested" in
    let* pnl := lift (Py.sub current_value invested) in
    let* invested := getitem "total_invested" in
    let* shares := getitem "total_shares" in
    let* avg_cost := lift (Py.truediv invested shares) in
    print LPosition;;
    let* shares := getitem "total_shares" in
    printf [shares] (LShares shares);;
    let* invested := getitem "total_invested" in
    printf [invested] (LInvested invested);;
    printf [avg_cost] (LAvgCost avg_cost);;
    printf [current_value] (LValue current_value);;
    lift (Py.format_f pnl);;
    let* invested := getitem "total_invested" in
    let* ratio := lift (Py.truediv pnl invested) in
    let* pct := lift (Py.mul ratio (PInt 100)) in
    printf [pct] (LPnl pnl pct);;
    let* waiting := getitem "waiting_for_dca" in
    if Py.truthy waiting then
      let* last_price := getitem "last_single_share_price" in
      printf [last_price] (LNextDca last_price)
    else print LNextBuy
  else ret tt.

Definition run (w : world) : M unit :=
  print LRunning;;
  print LRule;;
  let* balance := get_balance w in
  let* current_price := get_price w in
  print (LBalance balance);;
  print (LQuote current_price);;
  let* gate := check_daily_trade_limit w in
  print (snd gate);;
  if negb (fst gate) then print LLimitStop
  else
    (let* waiting := getitem "waiting_for_dca" in
     if negb (Py.truthy waiting) then
       print LCycleBuy;;
       if (current_price <=? balance)%float
       then buy_single_share w current_price;; ret tt
       else print LNoFundsUnit;;
            print (LNeedUnit current_price);;
            print (LHaveUnit balance)
     else
       let* last_price := getitem "last_single_share_price" in
       printf [last_price] (LCycleWait last_price);;
       let* dropped := lift (Py.lt (PFloat current_price) last_price) in
       if dropped then
         printf [last_price] (LPriceDropped current_price last_price);;
         if (dca_amount <=? balance)%float then
           let* bought := dca_buy w current_price in
           if bought
           then setitem "waiting_for_dca" (PBool false);;
                save_data;;
                print LCycleReset
           else ret tt
         else print LNoFundsDca;;
              print (LNeedDca dca_amount);;
              print (LHaveDca balance)
       else printf [last_price] (LWaiting current_price last_price);;
            print LNoAction);;
    show_position current_price.

(** One turn of the loop under [__main__]: an exception of [run] is caught
    and reported, and the loop goes on. *)
Definition main_iteration (w : world) : M unit :=
  try_except (run w;; print LWaitMinute)
             (fun e => print (LError e);; print LRetrying).

(** * Vocabulary of the statements *)

(** ** Well-formed ledgers *)

(** The record as the bot itself writes it: the typed content of the six
    fields of [self.data]. *)
Record ledger : Type := {
  last_single_share_price : option float;
  total_invested : float;
  total_shares : float;
  waiting_for_dca : bool;
  trades_today : Z;
  last_trade_date : option string
}.

Definition py_option {A} (inj : A -> pyval) (o : option A) : pyval :=
  match o with
  | Some a => inj a
  | None => PNone
  end.

(** The dict [d] holds the ledger [l] (and maybe other keys). *)
Definition stores (d : gmap string pyval) (l : ledger) : Prop :=
  d !! "last_single_share_price"
    = Some (py_option PFloat (last_single_share_price l)) /\
  d !! "total_invested" = Some (PFloat (total_invested l)) /\
  d !! "total_shares" = Some (PFloat (total_shares l)) /\
  d !! "waiting_for_dca" = Some (PBool (waiting_for_dca l)) /\
  d !! "trades_today" = Some (PInt (trades_today l)) /\
  d !! "last_trade_date" = Some (py_option PStr (last_trade_date l)).

(** The dict the bot writes for a ledger. *)
Definition to_dict (l : ledger) : gmap string pyval :=
  <["last_single_share_price" := py_option PFloat (last_single_share_price l)]>
  (<["total_invested" := PFloat (total_invested l)]>
  (<["total_shares" := PFloat (total_shares l)]>
  (<["waiting_for_dca" := PBool (waiting_for_dca l)]>
  (<["trades_today" := PInt (trades_today l)]>
  (<["last_trade_date" := py_option PStr (last_trade_date l)]> ∅))))).

Definition zero_ledger : ledger :=
  {| last_single_share_price := None;
     total_invested := 0.0%float; total_shares := 0.0%float;
     waiting_for_dca := false; trades_today := 0; last_trade_date := None |}.

(** The ledger after a unit buy at [price]. *)
Definition after_unit_buy (price : float) (l : ledger) : ledger :=
  {| last_single_share_price := Some price;
     total_invested := (total_invested l + price)%float;
     total_shares := (total_shares l + 1.0)%float;
     waiting_for_dca := true;
     trades_today := trades_today l + 1;
     last_trade_date := last_trade_date l |}.

(** The ledger after a DCA buy at [price]; the phase is reset by [run]. *)
Definition after_dca_buy (price : float) (l : ledger) : ledger :=
  {| last_single_share_price := last_single_share_price l;
     total_invested := (total_invested l + dca_amount)%float;
     total_shares := (total_shares l + dca_amount / price)%float;
     waiting_for_dca := waiting_for_dca l;
     trades_today := trades_today l + 1;
     last_trade_date := last_trade_date l |}.

(** The ledger after the day reset of the gate, if today is a new day. *)
Definition at_gate (w : world) (l : ledger) : ledger :=
  if decide (last_trade_date l = Some (today w)) then l
  else {| last_single_share_price := last_single_share_price l;
          total_invested := total_invested l;
          total_shares := total_shares l;
          waiting_for_dca := waiting_for_dca l;
          trades_today := 0;
          last_trade_date := Some (today w) |}.

(** The dict after the day reset of the gate. *)
Definition new_day (w : world) (d : gmap string pyval) : gmap string pyval :=
  <["last_trade_date" := PStr (today w)]> (<["trades_today" := PInt 0]> d).

(** ** States compared *)

(** [b] with the lines [ls] printed after its own. *)
Definition add_lines (ls : list line) (b : bot) : bot :=
  {| data := data b; file := file b;
     stdout := stdout b ++ ls; orders := orders b |}.

(** The dict and the file of [b'] are those of [b]. *)
Definition same_ledger (b b' : bot) : Prop :=
  data b' = data b /\ file b' = file b.

(** The dict and the file of [b'] are those the gate left when called on
    [b], no order was added, and the lines printed since [b] start with
    [ls]. *)
Definition only_printed (w : world) (b : bot) (ls : list line) (b' : bot) : Prop :=
  data b' = data (snd (check_daily_trade_limit w b)) /\
  file b' = file (snd (check_daily_trade_limit w b)) /\
  orders b' = orders b /\
  exists rest, stdout b' = stdout b ++ ls ++ rest.

(** ** Reachable states *)

(** A true [waiting_for_dca] comes with a reference price. *)
Definition cycle_invariant (d : gmap string pyval) : Prop :=
  forall v, d !! "waiting_for_dca" = Some v -> Py.truthy v = true ->
    exists p, d !! "last_single_share_price" = Some (PFloat p).

Definition has_reference (d : gmap string pyval) : Prop :=
  exists p, d !! "last_single_share_price" = Some (PFloat p).

(** The operations on the ledger: the methods that write [self.data], with
    any argument and any answer of the outside world. *)
Inductive operation : Type :=
| DoBuySingleShare (w : world) (current_price : float)
| DoDcaBuy (w : world) (current_price : float)
| DoCheckDailyTradeLimit (w : world)
| DoRecordTrade
| DoRun (w : world)
| DoMainIteration (w : world).

(** The state an operation leaves behind, whether it returns or raises. *)
Definition perform (op : operation) (b : bot) : bot :=
  match op with
  | DoBuySingleShare w p => snd (buy_single_share w p b)
  | DoDcaBuy w p => snd (dca_buy w p b)
  | DoCheckDailyTradeLimit w => snd (check_daily_trade_limit w b)
  | DoRecordTrade => snd (record_trade b)
  | DoRun w => snd (run w b)
  | DoMainIteration w => snd (main_iteration w b)
  end.

(** The states reached from the zero state. *)
Inductive reachable : bot -> Prop :=
| reachable_zero b : data b = zero_state -> reachable b
| reachable_step b op : reachable b -> reachable (perform op b).

(** ** Assertions on methods *)

(** [hoare P m Q]: from a state in [P], the method [m] ends in a state in
    [Q], whether it returns or raises. *)
Definition hoare {A} (P : bot -> Prop) (m : M A) (Q : bot -> Prop) : Prop :=
  forall b, P b -> Q (snd (m b)).

Definition keeps {A} (P : bot -> Prop) (m : M A) : Prop := hoare P m P.

(** A predicate on the dict alone. *)
Definition on_data (I : gmap string pyval -> Prop) : bot -> Prop :=
  fun b => I (data b).

Definition ignores_print (P : bot -> Prop) : Prop :=
  forall b l, P b -> P (add_line l b).

Definition ignores_orders (P : bot -> Prop) : Prop :=
  forall b o, P b -> P (add_order o b).

Definition ignores_file (P : bot -> Prop) : Prop :=
  forall b f, P b -> P (set_file f b).

(** [wp m Q b]: run from [b], the method [m] ends with an outcome and a
    state in [Q]. *)
Definition wp {A} (m : M A) (Q : outcome A -> bot -> Prop) (b : bot) : Prop :=
  Q (fst (m b)) (snd (m b)).

(** The postcondition of the first half of a [bind]. *)
Definition wp_next {A B} (k : A -> M B) (Q : outcome B -> bot -> Prop) :
    outcome A -> bot -> Prop :=
  fun o b =>
    match o with
    | Returns a => wp (k a) Q b
    | Raises e => Q (Raises e) b
    end.

(** The postcondition of the body of a [try_except]. *)
Definition wp_handle {A} (handler : exn -> M A) (Q : outcome A -> bot -> Prop) :
    outcome A -> bot -> Prop :=
  fun o b =>
    match o with
    | Returns a => Q (Returns a) b
    | Raises e => wp (handler e) Q b
    end.

(** ** Sample worlds and ledgers *)

(** A world on 2024-01-02 with one answer to every order. *)
Definition market (balance ask bid : float) (answer : outcome string) : world :=
  {| today := "2024-01-02";
     get_account := Returns balance;
     get_clock := Returns true;
     get_latest_quote := Returns {| ask_price := ask; bid_price := bid |};
     submit_order := fun _ => answer |}.

(** Balance 100.00, quote 5.00. *)
Definition quiet_world : world :=
  market 100.0%float 5.0%float 4.75%float (Returns "order-1").

(** Balance 3.00, quote 5.00: not enough for one share. *)
Definition poor_world : world :=
  market 3.0%float 5.0%float 4.75%float (Returns "order-1").

(** Balance 20.00, quote 4.50. *)
Definition dip_world : world :=
  market 20.0%float 4.5%float 4.25%float (Returns "order-2").

(** Balance 20.00, quote 5.50. *)
Definition high_world : world :=
  market 20.0%float 5.5%float 5.25%float (Returns "order-2").

(** Balance 20.00, quote 4.50, every order refused. *)
Definition refusing_world : world :=
  market 20.0%float 4.5%float 4.25%float (Raises (APIError "rejected")).

(** Balance 20.00, quote -1.00. *)
Definition negative_world : world :=
  market 20.0%float (-1.0)%float (-1.0)%float (Returns "order-2").

(** An older data file: the three position fields only. *)
Definition old_schema_record : gmap string pyval :=
  <["last_single_share_price" := PFloat 5.0%float]>
  (<["total_invested" := PFloat 5.0%float]>
  (<["total_shares" := PFloat 1.0%float]> ∅)).

(** One share bought at 5.00 on 2024-01-01, DCA pending. *)
Definition pending_ledger : ledger :=
  {| last_single_share_price := Some 5.0%float;
     total_invested := 5.0%float; total_shares := 1.0%float;
     waiting_for_dca := true; trades_today := 1;
     last_trade_date := Some "2024-01-01" |}.

Definition pending_bot : bot := __init__ (JsonObject (to_dict pending_ledger)).

(** DCA pending on 2024-01-02, the two trades of the day made. *)
Definition capped_ledger : ledger :=
  {| last_single_share_price := Some 5.0%float;
     total_invested := 30.0%float; total_shares := 6.0%float;
     waiting_for_dca := true; trades_today := 2;
     last_trade_date := Some "2024-01-02" |}.

Definition capped_bot : bot := __init__ (JsonObject (to_dict capped_ledger)).

(** ** The cycle on well-formed ledgers *)

(** The broker takes the order. *)
Definition accepted (w : world) (o : order) : bool :=
  match submit_order w o with
  | Returns _ => true
  | Raises _ => false
  end.

(** The ledger after [run] has reset the cycle. *)
Definition reset_cycle (l : ledger) : ledger :=
  {| last_single_share_price := last_single_share_price l;
     total_invested := total_invested l;
     total_shares := total_shares l;
     waiting_for_dca := false;
     trades_today := trades_today l;
     last_trade_date := last_trade_date l |}.

(** What one call of [run] makes of a ledger: nothing when the balance or
    the quote cannot be read; else the day reset of the gate, and then, below
    the daily limit, a unit buy when none is pending a DCA and the balance
    covers the price, or a DCA buy when the price is below the reference
    price, the balance covers [dca_amount] and the price is not zero; each
    only if the broker takes the order. *)
Definition next_ledger (w : world) (l : ledger) : ledger :=
  match get_account w, get_latest_quote w with
  | Returns balance, Returns q =>
      let price := ask_or_bid q in
      let g := at_gate w l in
      if 2 <=? trades_today g then g
      else if negb (waiting_for_dca g) then
        if (price <=? balance)%float && accepted w single_share_order
        then after_unit_buy price g
        else g
      else
        match last_single_share_price g with
        | Some reference =>
            if (price <? reference)%float && (dca_amount <=? balance)%float
               && negb (price =? 0)%float
               && accepted w (dca_order (dca_amount / price))
            then reset_cycle (after_dca_buy price g)
            else g
        | None => g
        end
  | _, _ => l
  end.

(** What [run] may raise on a sound ledger. *)
Definition run_outcome (w : world) (o : outcome unit) : Prop :=
  match o with
  | Returns _ => True
  | Raises e =>
      e = ZeroDivisionError \/
      get_account w = Raises e \/ get_latest_quote w = Raises e
  end.

(** A stored ledger whose pending DCA has its reference price. *)
Definition sound (d : gmap string pyval) (l : ledger) : Prop :=
  stores d l /\
  (waiting_for_dca l = true -> is_Some (last_single_share_price l)).

(** A restart of the process would load the dict the bot has in memory. *)
Definition restart_safe (b : bot) : Prop := load_data (file b) = data b.

(** The states of a bot started without a usable data file, after any number
    of turns of the main loop. *)
Inductive in_service : bot -> Prop :=
| in_service_no_file : in_service (__init__ NoFile)
| in_service_bad_file : in_service (__init__ NotJson)
| in_service_turn w b : in_service b -> in_service (snd (main_iteration w b)).

(** Balance 20.00, quote 0.00: a share for nothing. *)
Definition free_world : world :=
  market 20.0%float 0%float 0%float (Returns "order-1").

(** * Properties *)

(** ** Loading the saved data (the [try] block of [__init__]) *)

Lemma setdefault_lookup key v (d : gmap string pyval) k :
  setdefault key v d !! k =
    if decide (key = k) then Some (default v (d !! key)) else d !! k.
Proof.
  unfold setdefault. destruct (d !! key) eqn:E; case_decide; subst; simpl.
  - done.
  - done.
  - by rewrite lookup_insert_eq.
  - by rewrite lookup_insert_ne.
Qed.

Lemma load_data_lookup (d : gmap string pyval) k :
  load_data (JsonObject d) !! k =
    if decide ("last_trade_date" = k) then Some (default PNone (d !! k))
    else if decide ("trades_today" = k) then Some (default (PInt 0) (d !! k))
    else d !! k.
Proof.
  unfold load_data. rewrite !setdefault_lookup.
  repeat case_decide; subst; done.
Qed.

(** C6, as stated, fails: a record without [waiting_for_dca] is loaded as it
    is, the field stays absent, and the first [run] raises [KeyError]. *)
Lemma C6_missing_field_not_backfilled :
  load_data (JsonObject old_schema_record) !! "waiting_for_dca" = None /\
  fst (run quiet_world (__init__ (JsonObject old_schema_record)))
    = Raises (KeyError "waiting_for_dca").
Proof. split; reflexivity. Qed.

(** C6, amended: a missing or unreadable file gives the zero state (no
    reference price, nothing invested, no share, no DCA pending, no trade
    today, no date); of a stored record every stored field is kept,
    [trades_today] and [last_trade_date] are added with [0] and [None] when
    absent, and no other absent field is added. *)
Theorem C6_load_data :
  load_data NoFile = zero_state /\
  load_data NotJson = zero_state /\
  stores zero_state zero_ledger /\
  forall d : gmap string pyval,
    (forall k v, d !! k = Some v -> load_data (JsonObject d) !! k = Some v) /\
    (d !! "trades_today" = None ->
       load_data (JsonObject d) !! "trades_today" = Some (PInt 0)) /\
    (d !! "last_trade_date" = None ->
       load_data (JsonObject d) !! "last_trade_date" = Some PNone) /\
    (forall k, k <> "trades_today" -> k <> "last_trade_date" ->
       load_data (JsonObject d) !! k = d !! k).
Proof.
  split; [done|]. split; [done|]. split; [by repeat split|].
  intros d. repeat split.
  - intros k v Hk. rewrite load_data_lookup, Hk. by repeat case_decide.
  - intros Hk. by rewrite load_data_lookup, Hk.
  - intros Hk. by rewrite load_data_lookup, Hk.
  - intros k H1 H2. rewrite load_data_lookup. by rewrite !decide_False.
Qed.

(** ** State predicates kept by a method, whether it returns or raises *)

Section Hoare.
Context {A B : Type}.
Implicit Types (P Q R : bot -> Prop).

Lemma hoare_bind P R Q (m : M A) (k : A -> M B) :
  hoare P m R -> (forall b, R b -> Q b) -> (forall a, hoare R (k a) Q) ->
  hoare P (bind m k) Q.
Proof.
  intros Hm HRQ Hk b HP. unfold bind. specialize (Hm b HP).
  destruct (m b) as [[a|e] b']; simpl in *; [by apply Hk | by apply HRQ].
Qed.

Lemma hoare_try P R Q (body : M A) (handler : exn -> M A) :
  hoare P body R -> (forall b, R b -> Q b) -> (forall e, hoare R (handler e) Q) ->
  hoare P (try_except body handler) Q.
Proof.
  intros Hm HRQ Hk b HP. unfold try_except. specialize (Hm b HP).
  destruct (body b) as [[a|e] b']; simpl in *; [by apply HRQ | by apply Hk].
Qed.

Lemma hoare_weaken P P' Q Q' (m : M A) :
  hoare P' m Q' -> (forall b, P b -> P' b) -> (forall b, Q' b -> Q b) ->
  hoare P m Q.
Proof. intros Hm HP HQ b Hb. apply HQ, Hm, HP, Hb. Qed.

Lemma keeps_bind P (m : M A) (k : A -> M B) :
  keeps P m -> (forall a, keeps P (k a)) -> keeps P (bind m k).
Proof. intros Hm Hk. by apply hoare_bind with (R := P). Qed.

Lemma keeps_try P (body : M A) (handler : exn -> M A) :
  keeps P body -> (forall e, keeps P (handler e)) ->
  keeps P (try_except body handler).
Proof. intros Hm Hk. by apply hoare_try with (R := P). Qed.

Lemma keeps_if P (c : bool) (m1 m2 : M A) :
  keeps P m1 -> keeps P m2 -> keeps P (if c then m1 else m2).
Proof. by destruct c. Qed.

Lemma keeps_ret P (a : A) : keeps P (ret a).
Proof. by intros b Hb. Qed.

Lemma keeps_raise P e : keeps P (raise (A := A) e).
Proof. by intros b Hb. Qed.

Lemma keeps_lift P (o : outcome A) : keeps P (lift o).
Proof. by intros b Hb. Qed.

End Hoare.

Lemma keeps_getitem P key : keeps P (getitem key).
Proof. intros b Hb. unfold getitem. by destruct (data b !! key). Qed.

Lemma keeps_print P l : ignores_print P -> keeps P (print l).
Proof. intros HP b Hb. by apply HP. Qed.

Lemma keeps_printf P vs l : ignores_print P -> keeps P (printf vs l).
Proof.
  intros HP. induction vs as [|v vs IH]; simpl.
  - by apply keeps_print.
  - apply keeps_bind; [apply keeps_lift | done].
Qed.

Lemma keeps_api_submit_order P w o :
  ignores_orders P -> keeps P (api_submit_order w o).
Proof. intros HP b Hb. by apply HP. Qed.

Lemma keeps_save_data P : ignores_file P -> keeps P save_data.
Proof. intros HP b Hb. by apply HP. Qed.

Lemma keeps_setitem P key v :
  (forall b, P b -> P (set_data (<[key := v]> (data b)) b)) ->
  keeps P (setitem key v).
Proof. intros HP b Hb. by apply HP. Qed.

Lemma keeps_iadd P key v :
  (forall b v', P b -> P (set_data (<[key := v']> (data b)) b)) ->
  keeps P (iadd key v).
Proof.
  intros HP. unfold iadd.
  apply keeps_bind; [apply keeps_getitem | intros old].
  apply keeps_bind; [apply keeps_lift | intros new].
  apply keeps_setitem. intros b Hb. by apply HP.
Qed.

Lemma on_data_ignores_print I : ignores_print (on_data I).
Proof. by intros b l. Qed.

Lemma on_data_ignores_orders I : ignores_orders (on_data I).
Proof. by intros b o. Qed.

Lemma on_data_ignores_file I : ignores_file (on_data I).
Proof. by intros b f. Qed.

(** The block that shows the position only prints. *)
Lemma keeps_show_position P price :
  ignores_print P -> keeps P (show_position price).
Proof.
  intros HP. unfold show_position.
  repeat first
    [ apply keeps_getitem | apply keeps_lift | apply keeps_ret
    | apply keeps_print; exact HP | apply keeps_printf; exact HP
    | apply keeps_if
    | apply keeps_bind; [|intros ?] ].
Qed.

(** ** The daily gate *)

Lemma check_daily_trade_limit_eq w b :
  check_daily_trade_limit w b =
    match data b !! "last_trade_date" with
    | None => (Raises (KeyError "last_trade_date"), b)
    | Some last =>
        if Py.ne_str last (today w)
        then (Returns (true, LTradeMsg false (PInt 0)),
              set_file (JsonObject (new_day w (data b)))
                       (set_data (new_day w (data b)) b))
        else
          match data b !! "trades_today" with
          | None => (Raises (KeyError "trades_today"), b)
          | Some n =>
              match Py.ge n (PInt 2) with
              | Returns r => (Returns (negb r, LTradeMsg r n), b)
              | Raises e => (Raises e, b)
              end
          end
    end.
Proof.
  unfold check_daily_trade_limit, bind, getitem.
  destruct (data b !! "last_trade_date") as [last|] eqn:Hl; [|done].
  destruct (Py.ne_str last (today w)); simpl.
  - rewrite lookup_insert_ne, lookup_insert_eq by done.
    change (Py.ge (PInt 0) (PInt 2)) with (Returns (A := bool) false). simpl.
    rewrite lookup_insert_ne, lookup_insert_eq by done. reflexivity.
  - unfold lift. destruct (data b !! "trades_today") as [n|] eqn:Hn; [|done].
    destruct (Py.ge n (PInt 2)) as [[]|]; simpl; by rewrite ?Hn.
Qed.

Lemma ne_str_same s : Py.ne_str (PStr s) s = false.
Proof. simpl. by rewrite String.eqb_refl. Qed.

(** C9: a second call of the daily gate with the same date gives the same
    answer and changes nothing; and when the stored date differs from today
    the call sets [trades_today] to [0] and [last_trade_date] to today. *)
Theorem C9_rollover_idempotent (w : world) (b : bot) :
  check_daily_trade_limit w (snd (check_daily_trade_limit w b))
    = check_daily_trade_limit w b /\
  forall last, data b !! "last_trade_date" = Some last ->
    Py.ne_str last (today w) = true ->
    data (snd (check_daily_trade_limit w b)) !! "trades_today" = Some (PInt 0) /\
    data (snd (check_daily_trade_limit w b)) !! "last_trade_date"
      = Some (PStr (today w)).
Proof.
  rewrite (check_daily_trade_limit_eq w b).
  destruct (data b !! "last_trade_date") as [last|] eqn:Hl.
  - destruct (Py.ne_str last (today w)) eqn:Hne.
    + split.
      * rewrite check_daily_trade_limit_eq. simpl. unfold new_day.
        rewrite lookup_insert_eq, ne_str_same.
        by rewrite lookup_insert_ne, lookup_insert_eq.
      * intros last' _ _. simpl. unfold new_day.
        by rewrite lookup_insert_eq, lookup_insert_ne, lookup_insert_eq.
    + split; [|intros last' [= <-]; congruence].
      destruct (data b !! "trades_today") as [n|] eqn:Hn.
      * destruct (Py.ge n (PInt 2)) as [r|e] eqn:Hge; simpl;
          by rewrite check_daily_trade_limit_eq, Hl, Hne, Hn, Hge.
      * simpl. by rewrite check_daily_trade_limit_eq, Hl, Hne, Hn.
  - split; [|done]. simpl. by rewrite check_daily_trade_limit_eq, Hl.
Qed.

(** ** Postconditions that see the outcome *)

Section Wp.
Context {A B : Type}.

Lemma wp_bind (m : M A) (k : A -> M B) Q b :
  wp m (wp_next k Q) b -> wp (bind m k) Q b.
Proof. unfold wp, wp_next, bind. by destruct (m b) as [[a|e] b']. Qed.

Lemma wp_try (body : M A) handler Q b :
  wp body (wp_handle handler Q) b -> wp (try_except body handler) Q b.
Proof. unfold wp, wp_handle, try_except. by destruct (body b) as [[a|e] b']. Qed.

Lemma wp_hoare P R (m : M A) (Q : outcome A -> bot -> Prop) b :
  hoare P m R -> P b -> (forall o b', R b' -> Q o b') -> wp m Q b.
Proof. intros Hm Hb HQ. apply HQ, Hm, Hb. Qed.

Lemma wp_mono (m : M A) (Q Q' : outcome A -> bot -> Prop) b :
  wp m Q b -> (forall o b', Q o b' -> Q' o b') -> wp m Q' b.
Proof. intros Hm HQ. apply HQ, Hm. Qed.

Lemma wp_ret (a : A) Q b : Q (Returns a) b -> wp (ret a) Q b.
Proof. done. Qed.

Lemma wp_raise e (Q : outcome A -> bot -> Prop) b :
  Q (Raises e) b -> wp (raise e) Q b.
Proof. done. Qed.

Lemma wp_lift (o : outcome A) Q b : Q o b -> wp (lift o) Q b.
Proof. done. Qed.

End Wp.

Lemma wp_print l Q b : Q (Returns tt) (add_line l b) -> wp (print l) Q b.
Proof. done. Qed.

Lemma wp_getitem key Q b :
  match data b !! key with
  | Some v => Q (Returns v) b
  | None => Q (Raises (KeyError key)) b
  end -> wp (getitem key) Q b.
Proof. unfold wp, getitem. by destruct (data b !! key). Qed.

Lemma wp_setitem key v Q b :
  Q (Returns tt) (set_data (<[key := v]> (data b)) b) -> wp (setitem key v) Q b.
Proof. done. Qed.

Lemma wp_save_data Q b :
  Q (Returns tt) (set_file (JsonObject (data b)) b) -> wp save_data Q b.
Proof. done. Qed.

Lemma wp_api_submit_order w o Q b :
  Q (submit_order w o) (add_order o b) -> wp (api_submit_order w o) Q b.
Proof. done. Qed.

(** One step of symbolic execution. *)
Ltac wp_step :=
  lazymatch goal with
  | |- wp (bind _ _) _ _ => apply wp_bind
  | |- wp (try_except _ _) _ _ => apply wp_try
  | |- wp (print _) _ _ => apply wp_print
  | |- wp (getitem _) _ _ => apply wp_getitem
  | |- wp (setitem _ _) _ _ => apply wp_setitem
  | |- wp save_data _ _ => apply wp_save_data
  | |- wp (api_submit_order _ _) _ _ => apply wp_api_submit_order
  | |- wp (lift _) _ _ => apply wp_lift
  | |- wp (ret _) _ _ => apply wp_ret
  | |- wp (raise _) _ _ => apply wp_raise
  | |- wp (iadd _ _) _ _ => unfold iadd
  | |- wp record_trade _ _ => unfold record_trade
  | |- wp (printf _ _) _ _ => unfold printf; cbn [foldr]
  end;
  cbn [wp_next wp_handle data file stdout orders
       set_data set_file add_line add_order].

(** ** C10: the stored date is the date of the last evaluation *)

Lemma hoare_check_daily_trade_limit_date w :
  hoare (on_data (fun d => is_Some (d !! "last_trade_date")))
        (check_daily_trade_limit w)
        (on_data (fun d => d !! "last_trade_date" = Some (PStr (today w)))).
Proof.
  intros b [last Hl]. unfold on_data in *.
  rewrite check_daily_trade_limit_eq, Hl.
  destruct last as [| | | |s]; simpl; unfold new_day;
    try by rewrite lookup_insert_eq.
  destruct (String.eqb_spec s (today w)) as [->|Hne]; simpl.
  - by repeat case_match.
  - by rewrite lookup_insert_eq.
Qed.

(** Splits a [keeps] goal along the structure of the method, down to the
    writes into the dict. *)
Ltac keeps_with known :=
  repeat first
    [ known
    | apply keeps_ret | apply keeps_raise | apply keeps_lift
    | apply keeps_getitem
    | apply keeps_print; try assumption
    | apply keeps_printf; try assumption
    | apply keeps_show_position; try assumption
    | apply keeps_api_submit_order; try assumption
    | apply keeps_save_data; try assumption
    | apply keeps_if
    | apply keeps_bind; [|intros ?]
    | apply keeps_try; [|intros ?]
    | apply keeps_setitem
    | apply keeps_iadd ].

Ltac keeps_tac := keeps_with fail.

(** C10: after a call of [run] that got the balance and the quote and found
    a [last_trade_date] field, the field holds the date of this call, whether
    or not the call traded. *)
Theorem C10_last_trade_date_is_evaluation_date
    (w : world) (b : bot) (balance : float) (q : quote) :
  get_account w = Returns balance ->
  get_latest_quote w = Returns q ->
  is_Some (data b !! "last_trade_date") ->
  data (snd (run w b)) !! "last_trade_date" = Some (PStr (today w)).
Proof.
  intros Hacc Hq Hdate.
  set (R := on_data (fun d => d !! "last_trade_date" = Some (PStr (today w)))).
  assert (ignores_print R) by apply on_data_ignores_print.
  assert (ignores_orders R) by apply on_data_ignores_orders.
  assert (ignores_file R) by apply on_data_ignores_file.
  change (wp (run w) (fun _ b' => R b') b).
  unfold run, get_balance, get_price. rewrite Hacc, Hq.
  repeat wp_step.
  eapply wp_hoare; [apply hoare_check_daily_trade_limit_date | exact Hdate |].
  intros [gate|e] b' Hb'; [|exact Hb']. simpl.
  eapply wp_hoare; [|exact Hb'|by intros].
  unfold buy_single_share, dca_buy, record_trade.
  keeps_tac.
  all: intros; unfold R, on_data in *; simpl; by rewrite lookup_insert_ne.
Qed.

(** With a balance of 3.00 and a quote of 5.00 nothing is bought, and the
    date is stored all the same. *)
Lemma C10_date_advances_without_trade :
  data (snd (run poor_world (__init__ NoFile))) !! "last_trade_date"
    = Some (PStr "2024-01-02") /\
  orders (snd (run poor_world (__init__ NoFile))) = [].
Proof.
  split.
  - apply (C10_last_trade_date_is_evaluation_date poor_world (__init__ NoFile)
             3.0%float {| ask_price := 5.0%float; bid_price := 4.75%float |}).
    + reflexivity.
    + reflexivity.
    + eexists. reflexivity.
  - reflexivity.
Defined.

(** ** C7: a pending DCA always has its reference price *)

Lemma has_reference_invariant d : has_reference d -> cycle_invariant d.
Proof. intros Hd v _ _. exact Hd. Qed.

Lemma keeps_invariant_buy_single_share w p :
  keeps (on_data cycle_invariant) (buy_single_share w p).
Proof.
  pose proof (on_data_ignores_print cycle_invariant).
  pose proof (on_data_ignores_orders cycle_invariant).
  pose proof (on_data_ignores_print has_reference).
  pose proof (on_data_ignores_file has_reference).
  unfold buy_single_share.
  apply keeps_bind; [keeps_tac | intros _].
  apply keeps_try; [| intros e; keeps_tac].
  apply keeps_bind; [keeps_tac | intros id].
  apply keeps_bind; [keeps_tac | intros _].
  apply hoare_bind with (R := on_data has_reference).
  - intros b _. unfold on_data, has_reference. simpl.
    exists p. by rewrite lookup_insert_eq.
  - intros b. apply has_reference_invariant.
  - intros _. eapply hoare_weaken;
      [| intros b Hb; exact Hb | intros b; apply has_reference_invariant].
    unfold record_trade. keeps_tac.
    all: intros b; intros; unfold on_data, has_reference in *; simpl;
      by rewrite lookup_insert_ne.
Qed.

Lemma cycle_invariant_insert_other key v d :
  key <> "waiting_for_dca" -> key <> "last_single_share_price" ->
  cycle_invariant d -> cycle_invariant (<[key := v]> d).
Proof.
  intros H1 H2 Hd v'. rewrite !lookup_insert_ne by done. apply Hd.
Qed.

Lemma cycle_invariant_insert_not_waiting d :
  cycle_invariant (<["waiting_for_dca" := PBool false]> d).
Proof. intros v. rewrite lookup_insert_eq. by intros [= <-]. Qed.

Lemma keeps_invariant_run w : keeps (on_data cycle_invariant) (run w).
Proof.
  pose proof (on_data_ignores_print cycle_invariant).
  pose proof (on_data_ignores_orders cycle_invariant).
  pose proof (on_data_ignores_file cycle_invariant).
  unfold run, get_balance, get_price, check_daily_trade_limit, dca_buy,
    record_trade.
  keeps_with ltac:(apply keeps_invariant_buy_single_share).
  all: intros b; intros; unfold on_data in *; simpl;
    first [ by apply cycle_invariant_insert_other
          | apply cycle_invariant_insert_not_waiting ].
Qed.

Lemma keeps_invariant_other w p :
  keeps (on_data cycle_invariant) (dca_buy w p) /\
  keeps (on_data cycle_invariant) (check_daily_trade_limit w) /\
  keeps (on_data cycle_invariant) record_trade /\
  keeps (on_data cycle_invariant) (main_iteration w).
Proof.
  pose proof (on_data_ignores_print cycle_invariant).
  pose proof (on_data_ignores_orders cycle_invariant).
  pose proof (on_data_ignores_file cycle_invariant).
  unfold dca_buy, check_daily_trade_limit, record_trade, main_iteration.
  repeat split.
  all: keeps_with ltac:(apply keeps_invariant_run).
  all: intros b; intros; by apply cycle_invariant_insert_other.
Qed.

(** C7: in every state reached from the zero state by operations on the
    ledger, a true [waiting_for_dca] comes with a [last_single_share_price]
    that is a price, not [None]. *)
Theorem C7_pending_dca_has_reference (b : bot) :
  reachable b ->
  forall v, data b !! "waiting_for_dca" = Some v -> Py.truthy v = true ->
    exists p, data b !! "last_single_share_price" = Some (PFloat p).
Proof.
  change (reachable b -> cycle_invariant (data b)).
  induction 1 as [b Hz | b op _ IH].
  - rewrite Hz. intros v [= <-]. discriminate.
  - destruct op as [w p | w p | w | | w | w]; simpl.
    + by apply keeps_invariant_buy_single_share.
    + by apply (keeps_invariant_other w p).
    + by apply (keeps_invariant_other w 0%float).
    + by apply (keeps_invariant_other quiet_world 0%float).
    + by apply keeps_invariant_run.
    + by apply (keeps_invariant_other w 0%float).
Qed.

(** The state after the first unit buy. *)
Lemma C7_holds_after_first_buy :
  exists p, data (snd (run quiet_world (__init__ NoFile)))
              !! "last_single_share_price" = Some (PFloat p).
Proof.
  apply (C7_pending_dca_has_reference
           (snd (run quiet_world (__init__ NoFile)))) with (v := PBool true).
  - apply (reachable_step _ (DoRun quiet_world)), reachable_zero. reflexivity.
  - reflexivity.
  - reflexivity.
Defined.

(** ** Well-formed ledgers *)


Ltac use_stores H :=
  let H1 := fresh "Hprice" in let H2 := fresh "Hinvested" in
  let H3 := fresh "Hshares" in let H4 := fresh "Hwaiting" in
  let H5 := fresh "Htrades" in let H6 := fresh "Hdate" in
  destruct H as (H1 & H2 & H3 & H4 & H5 & H6).

(** Steps through a method on a dict whose fields are known. *)
Ltac wp_run :=
  repeat first
    [ wp_step
    | progress simpl_map
    | progress cbn [wp_next wp_handle data file stdout orders
                    set_data set_file add_line add_order
                    Py.add Py.arith Py.as_num Py.to_float obind
                    Py.truthy Py.format_f Py.lt Py.compare_with Py.num_lt
                    py_option negb fst snd] ].




(** ** The DCA buy *)

Lemma float_pos_nonzero (p : float) :
  (0 <? p)%float = true -> (p =? 0)%float = false.
Proof.
  rewrite FloatAxioms.ltb_spec, FloatAxioms.eqb_spec.
  change (FloatOps.Prim2SF 0) with (S754_zero false).
  by destruct (FloatOps.Prim2SF p) as [[]|[]| |[] m e].
Qed.

Lemma float_neg_nonzero (p : float) :
  (p <? 0)%float = true -> (p =? 0)%float = false.
Proof.
  rewrite FloatAxioms.ltb_spec, FloatAxioms.eqb_spec.
  change (FloatOps.Prim2SF 0) with (S754_zero false).
  by destruct (FloatOps.Prim2SF p) as [[]|[]| |[] m e].
Qed.

Lemma dca_buy_ok w price b l id :
  stores (data b) l ->
  (price =? 0)%float = false ->
  submit_order w (dca_order (dca_amount / price)) = Returns id ->
  fst (dca_buy w price b) = Returns true /\
  stores (data (snd (dca_buy w price b))) (after_dca_buy price l).
Proof.
  intros Hl Hprice0 Hsub. use_stores Hl.
  change (wp (dca_buy w price)
            (fun o b' => o = Returns true /\
                         stores (data b') (after_dca_buy price l)) b).
  unfold dca_buy. rewrite Hprice0.
  wp_run. rewrite Hsub. wp_run.
  split; [done|]. repeat split; cbn; by simpl_map.
Qed.

(** ** The gate on a well-formed ledger *)

Lemma ne_str_date (o : option string) (s : string) :
  Py.ne_str (py_option PStr o) s = negb (bool_decide (o = Some s)).
Proof.
  destruct o as [t|]; simpl; [|done].
  destruct (String.eqb_spec t s) as [->|Hne].
  - by rewrite bool_decide_eq_true_2.
  - rewrite bool_decide_eq_false_2; [done|]. by intros [= ->].
Qed.

Lemma check_daily_trade_limit_stores w b l :
  stores (data b) l ->
  fst (check_daily_trade_limit w b)
    = Returns (negb (2 <=? trades_today (at_gate w l)),
               LTradeMsg (2 <=? trades_today (at_gate w l))
                         (PInt (trades_today (at_gate w l)))) /\
  stores (data (snd (check_daily_trade_limit w b))) (at_gate w l) /\
  stdout (snd (check_daily_trade_limit w b)) = stdout b /\
  orders (snd (check_daily_trade_limit w b)) = orders b.
Proof.
  intros Hl. pose proof Hl as Hl'. use_stores Hl'.
  rewrite check_daily_trade_limit_eq, Hdate, ne_str_date. unfold at_gate.
  case_decide as Htoday.
  - rewrite bool_decide_eq_true_2 by done. simpl. rewrite Htrades. by cbn.
  - rewrite bool_decide_eq_false_2 by done. simpl.
    repeat split; unfold new_day; by simpl_map.
Qed.


Lemma trades_at_gate_below_limit w l :
  (last_trade_date l = Some (today w) -> trades_today l < 2) ->
  (2 <=? trades_today (at_gate w l)) = false.
Proof.
  intros H. unfold at_gate. case_decide; simpl; [|done].
  apply Z.leb_gt. auto.
Qed.

Lemma at_gate_fields w l :
  last_single_share_price (at_gate w l) = last_single_share_price l /\
  total_invested (at_gate w l) = total_invested l /\
  total_shares (at_gate w l) = total_shares l /\
  waiting_for_dca (at_gate w l) = waiting_for_dca l.
Proof. unfold at_gate. by case_decide. Qed.

Lemma wp_intro {A} (m : M A) (Q : outcome A -> bot -> Prop) b :
  Q (fst (m b)) (snd (m b)) -> wp m Q b.
Proof. done. Qed.


Lemma to_dict_stores l : stores (to_dict l) l.
Proof. by repeat split. Qed.


(** ** C4: the daily limit *)

(** C4: when, after the day reset, [trades_today] is at least 2, [run]
    prints that the daily limit is reached and returns: no order is
    submitted, and the dict and the file are as before the call. *)
Theorem C4_daily_limit_reached (w : world) (b : bot) (balance : float)
    (q : quote) (n : pyval) :
  get_account w = Returns balance ->
  get_latest_quote w = Returns q ->
  is_Some (data b !! "last_trade_date") ->
  data (snd (check_daily_trade_limit w b)) !! "trades_today" = Some n ->
  Py.ge n (PInt 2) = Returns true ->
  run w b =
    (Returns tt,
     add_lines [LRunning; LRule; LBalance balance; LQuote (ask_or_bid q);
                LTradeMsg true n; LLimitStop] b).
Proof.
  intros Hacc Hq [last Hlast] Hn Hge.
  rewrite check_daily_trade_limit_eq, Hlast in Hn.
  unfold run, get_balance, get_price, bind, lift, print, ret.
  rewrite Hacc, Hq, check_daily_trade_limit_eq. simpl. rewrite Hlast.
  destruct (Py.ne_str last (today w)).
  - simpl in Hn. unfold new_day in Hn. simpl_map.
    injection Hn as <-. discriminate.
  - destruct (data b !! "trades_today") as [n'|] eqn:Hn'.
    + destruct (Py.ge n' (PInt 2)) as [r|e] eqn:Hge';
        simpl in Hn; rewrite Hn' in Hn; injection Hn as <-;
        rewrite Hge in Hge'; [|discriminate].
      injection Hge' as <-. simpl. unfold add_lines, add_line. simpl.
      by rewrite <- !app_assoc.
    + simpl in Hn. congruence.
Qed.

(** Two trades made today: the next call stops at the gate. *)
Lemma C4_third_evaluation_of_the_day :
  run high_world capped_bot =
    (Returns tt,
     add_lines [LRunning; LRule; LBalance 20.0%float; LQuote 5.5%float;
                LTradeMsg true (PInt 2); LLimitStop] capped_bot).
Proof.
  apply (C4_daily_limit_reached high_world capped_bot 20.0%float
           {| ask_price := 5.5%float; bid_price := 5.25%float |} (PInt 2)).
  - reflexivity.
  - reflexivity.
  - eexists. reflexivity.
  - reflexivity.
  - reflexivity.
Defined.

(** ** C8: waiting for the price to drop *)

Lemma check_daily_trade_limit_congr w b b0 :
  data b0 = data b -> file b0 = file b ->
  fst (check_daily_trade_limit w b0) = fst (check_daily_trade_limit w b) /\
  data (snd (check_daily_trade_limit w b0))
    = data (snd (check_daily_trade_limit w b)) /\
  file (snd (check_daily_trade_limit w b0))
    = file (snd (check_daily_trade_limit w b)) /\
  stdout (snd (check_daily_trade_limit w b0)) = stdout b0 /\
  orders (snd (check_daily_trade_limit w b0)) = orders b0.
Proof.
  intros Hd Hf. rewrite !check_daily_trade_limit_eq, Hd.
  destruct (data b !! "last_trade_date") as [last|]; [|done].
  destruct (Py.ne_str last (today w)); [done|].
  destruct (data b !! "trades_today") as [n|]; [|done].
  by destruct (Py.ge n (PInt 2)).
Qed.

Lemma only_printed_ignores_print w b ls : ignores_print (only_printed w b ls).
Proof.
  intros b' l (Hd & Hf & Ho & rest & Hs). repeat split; try done.
  exists (rest ++ [l]). simpl. by rewrite Hs, <- !app_assoc.
Qed.

(** C8, as stated, fails in two ways.  With the day's two trades made, the
    call stops at the daily limit and never reports that it waits for the
    price; and on the first call of a new day the gate rewrites
    [trades_today] and [last_trade_date]. *)
Lemma C8_fails_at_limit_and_on_new_day :
  (stores (data capped_bot) capped_ledger /\
   (5.5 <? 5.0)%float = false /\
   stdout (snd (run high_world capped_bot))
     = [LRunning; LRule; LBalance 20.0%float; LQuote 5.5%float;
        LTradeMsg true (PInt 2); LLimitStop]) /\
  (stores (data pending_bot) pending_ledger /\
   (5.5 <? 5.0)%float = false /\
   data pending_bot !! "last_trade_date" = Some (PStr "2024-01-01") /\
   data (snd (run high_world pending_bot)) !! "last_trade_date"
     = Some (PStr "2024-01-02") /\
   data pending_bot !! "trades_today" = Some (PInt 1) /\
   data (snd (run high_world pending_bot)) !! "trades_today" = Some (PInt 0) /\
   data (snd (run high_world pending_bot)) <> data pending_bot).
Proof.
  split.
  - repeat split.
  - repeat split. intros H.
    apply (f_equal (fun d => d !! "trades_today")) in H.
    vm_compute in H. discriminate.
Qed.

(** C8, amended: with a DCA pending, fewer than two trades made today, and a
    price not below the reference price, [run] reports that it waits for the
    price to drop, submits no order, and leaves the dict and the file as the
    day reset of the gate left them. *)
Theorem C8_waiting_for_price_drop (w : world) (b : bot) (balance : float)
    (q : quote) (l : ledger) (R : float) :
  get_account w = Returns balance ->
  get_latest_quote w = Returns q ->
  stores (data b) l ->
  (last_trade_date l = Some (today w) -> trades_today l < 2) ->
  waiting_for_dca l = true ->
  last_single_share_price l = Some R ->
  (ask_or_bid q <? R)%float = false ->
  stores (data (snd (run w b))) (at_gate w l) /\
  data (snd (run w b)) = data (snd (check_daily_trade_limit w b)) /\
  file (snd (run w b)) = file (snd (check_daily_trade_limit w b)) /\
  orders (snd (run w b)) = orders b /\
  exists rest,
    stdout (snd (run w b)) =
      stdout b ++
      [LRunning; LRule; LBalance balance; LQuote (ask_or_bid q);
       LTradeMsg false (PInt (trades_today (at_gate w l)));
       LCycleWait (PFloat R); LWaiting (ask_or_bid q) (PFloat R); LNoAction]
      ++ rest.
Proof.
  intros Hacc Hq Hl Hgate Hw HR Hlt.
  cut (only_printed w b
         [LRunning; LRule; LBalance balance; LQuote (ask_or_bid q);
          LTradeMsg false (PInt (trades_today (at_gate w l)));
          LCycleWait (PFloat R); LWaiting (ask_or_bid q) (PFloat R); LNoAction]
         (snd (run w b))).
  { intros (Hd & Hf & Ho & Hs). split; [|done].
    rewrite Hd. by apply check_daily_trade_limit_stores. }
  set (P := ask_or_bid q) in *.
  set (ls := [LRunning; LRule; LBalance balance; LQuote P;
              LTradeMsg false (PInt (trades_today (at_gate w l)));
              LCycleWait (PFloat R); LWaiting P (PFloat R); LNoAction]).
  change (wp (run w) (fun _ b' => only_printed w b ls b') b).
  unfold run, get_balance, get_price. rewrite Hacc, Hq.
  repeat wp_step. fold P.
  apply wp_intro.
  lazymatch goal with
  | |- context [check_daily_trade_limit w ?s] => set (b0 := s)
  end.
  destruct (check_daily_trade_limit_stores w b0 l Hl) as (-> & Hl1 & Hs1 & Ho1).
  destruct (check_daily_trade_limit_congr w b b0 eq_refl eq_refl)
    as (_ & Hd1 & Hf1 & _ & _).
  set (b1 := snd (check_daily_trade_limit w b0)) in *.
  rewrite trades_at_gate_below_limit by done.
  pose proof Hl1 as Hl1'. use_stores Hl1'.
  destruct (at_gate_fields w l) as (E1 & E2 & E3 & E4).
  rewrite E1, HR in Hprice. rewrite E4, Hw in Hwaiting.
  wp_run. rewrite Hlt. wp_run.
  eapply wp_hoare;
    [apply keeps_show_position, (only_printed_ignores_print w b ls)
    | | by intros].
  repeat split; try done.
  exists []. simpl. rewrite Hs1. subst b0. simpl.
  by rewrite <- !app_assoc.
Qed.

(** One share held at 5.00, quote 5.50, first call of a new day. *)
Lemma C8_price_above_reference :
  stores (data (snd (run high_world pending_bot)))
         (at_gate high_world pending_ledger) /\
  data (snd (run high_world pending_bot))
    = data (snd (check_daily_trade_limit high_world pending_bot)) /\
  file (snd (run high_world pending_bot))
    = file (snd (check_daily_trade_limit high_world pending_bot)) /\
  orders (snd (run high_world pending_bot)) = orders pending_bot /\
  exists rest,
    stdout (snd (run high_world pending_bot)) =
      stdout pending_bot ++
      [LRunning; LRule; LBalance 20.0%float;
       LQuote (ask_or_bid {| ask_price := 5.5%float; bid_price := 5.25%float |});
       LTradeMsg false (PInt (trades_today (at_gate high_world pending_ledger)));
       LCycleWait (PFloat 5.0%float);
       LWaiting (ask_or_bid {| ask_price := 5.5%float; bid_price := 5.25%float |})
                (PFloat 5.0%float);
       LNoAction]
      ++ rest.
Proof.
  apply (C8_waiting_for_price_drop high_world pending_bot 20.0%float
           {| ask_price := 5.5%float; bid_price := 5.25%float |}
           pending_ledger 5.0%float).
  - reflexivity.
  - reflexivity.
  - repeat split.
  - intros [=].
  - reflexivity.
  - reflexivity.
  - reflexivity.
Defined.

(** ** C1: a refused order leaves the ledger alone *)

Lemma buy_single_share_refused w price b e :
  submit_order w single_share_order = Raises e ->
  buy_single_share w price b =
    (Returns false,
     add_line (LSingleFailed e)
       (add_order single_share_order (add_line (LBuying price) b))).
Proof.
  intros Hsub.
  unfold buy_single_share, bind, try_except, print, api_submit_order, ret.
  by rewrite Hsub.
Qed.

Lemma dca_buy_refused w price b e :
  submit_order w (dca_order (dca_amount / price)) = Raises e ->
  dca_buy w price b =
    if (price =? 0)%float then (Raises ZeroDivisionError, b)
    else (Returns false,
          add_line (LDcaFailed e)
            (add_order (dca_order (dca_amount / price))
               (add_line (LDcaBuy (dca_amount / price) price) b))).
Proof.
  intros Hsub.
  unfold dca_buy, bind, try_except, print, api_submit_order, ret, raise.
  destruct (price =? 0)%float; [done|]. by rewrite Hsub.
Qed.

Lemma same_ledger_ignores_print b : ignores_print (same_ledger b).
Proof. by intros b' l. Qed.

(** Case analysis along a method whose branches all matter. *)
Ltac wp_cases known :=
  repeat first
    [ known
    | wp_step
    | lazymatch goal with
      | |- wp (if ?c then _ else _) _ _ => destruct c eqn:?
      | |- wp_next _ _ ?o _ => destruct o eqn:?; cbn [wp_next]
      | |- match ?x with _ => _ end => destruct x eqn:?
      end ].

(** C1: when the broker refuses the order, [buy_single_share] and [dca_buy]
    leave the dict and the file untouched, and after the whole [run] the dict
    and the file are those before the call, or those the day reset of the
    gate left. *)
Theorem C1_refused_order_changes_nothing (w : world) (b : bot) :
  (forall o, exists e, submit_order w o = Raises e) ->
  (forall price, same_ledger b (snd (buy_single_share w price b))) /\
  (forall price, same_ledger b (snd (dca_buy w price b))) /\
  (same_ledger b (snd (run w b)) \/
   same_ledger (snd (check_daily_trade_limit w b)) (snd (run w b))).
Proof.
  intros Hrefuse. split; [|split].
  - intros price. destruct (Hrefuse single_share_order) as [e He].
    by rewrite (buy_single_share_refused w price b e He).
  - intros price.
    destruct (Hrefuse (dca_order (dca_amount / price))) as [e He].
    rewrite (dca_buy_refused w price b e He). by destruct (price =? 0)%float.
  - set (b1 := snd (check_daily_trade_limit w b)).
    change (wp (run w) (fun _ b' => same_ledger b b' \/ same_ledger b1 b') b).
    unfold run, get_balance, get_price.
    wp_cases fail; [| by left | by left].
    apply wp_intro.
    lazymatch goal with
    | |- context [check_daily_trade_limit w ?s] =>
        destruct (check_daily_trade_limit_congr w b s eq_refl eq_refl)
          as (_ & Hd & Hf & _ & _);
        destruct (check_daily_trade_limit w s) as [[gate|e] s1]
    end; simpl in Hd, Hf; fold b1 in Hd, Hf; cbn [wp_next fst snd];
      [|by right].
    apply wp_mono with (Q := fun _ b' => same_ledger b1 b');
      [|intros; by right].
    wp_cases ltac:(idtac; lazymatch goal with
      | |- wp (buy_single_share w ?p) _ ?s =>
          apply wp_intro;
          destruct (Hrefuse single_share_order) as [e He];
          rewrite (buy_single_share_refused w p s e He)
      | |- wp (dca_buy w ?p) _ ?s =>
          apply wp_intro;
          destruct (Hrefuse (dca_order (dca_amount / p))) as [e He];
          rewrite (dca_buy_refused w p s e He);
          destruct (p =? 0)%float
      | |- wp (show_position _) _ _ =>
          eapply wp_hoare;
            [apply keeps_show_position, (same_ledger_ignores_print b1)
            | | by intros]
      | |- same_ledger _ _ => by split
      end).
Qed.

(** One share held at 5.00, quote 4.50, and a broker that refuses. *)
Lemma C1_refused_dca_order :
  (forall price,
     same_ledger pending_bot (snd (buy_single_share refusing_world price pending_bot))) /\
  (forall price,
     same_ledger pending_bot (snd (dca_buy refusing_world price pending_bot))) /\
  (same_ledger pending_bot (snd (run refusing_world pending_bot)) \/
   same_ledger (snd (check_daily_trade_limit refusing_world pending_bot))
               (snd (run refusing_world pending_bot))).
Proof.
  apply (C1_refused_order_changes_nothing refusing_world pending_bot).
  intros o. exists (APIError "rejected"). reflexivity.
Defined.

(** ** C5: the DCA buy at a price that is not positive *)

(** C5, as stated, fails: at the price -1.00 the quotient 20.00 / -1.00 is
    computed, an order for -20 shares is submitted, and once the broker
    accepts it the ledger is updated and the call returns [True]; [run]
    gets there whenever a DCA is pending and the balance allows it. *)
Lemma C5_negative_price_is_not_refused :
  ((-1.0) <=? 0)%float = true /\
  fst (dca_buy negative_world (-1.0)%float pending_bot) = Returns true /\
  orders (snd (dca_buy negative_world (-1.0)%float pending_bot))
    = [dca_order (-20.0)%float] /\
  data pending_bot !! "total_shares" = Some (PFloat 1.0%float) /\
  data (snd (dca_buy negative_world (-1.0)%float pending_bot)) !! "total_shares"
    = Some (PFloat (-19.0)%float) /\
  data (snd (dca_buy negative_world (-1.0)%float pending_bot)) <> data pending_bot /\
  orders (snd (run negative_world pending_bot)) = [dca_order (-20.0)%float] /\
  data (snd (run negative_world pending_bot)) !! "total_shares"
    = Some (PFloat (-19.0)%float).
Proof.
  repeat split. intros H.
  apply (f_equal (fun d => d !! "trades_today")) in H.
  vm_compute in H. discriminate.
Qed.

Lemma orders_ignores (os : list order) :
  let P := fun s : bot => orders s = os in
  ignores_print P /\ ignores_file P /\
  forall key v s, P s -> P (set_data (<[key := v]> (data s)) s).
Proof. intros P. repeat split; by intros s. Qed.

(** C5, amended: at a price equal to zero the division raises
    [ZeroDivisionError] before anything is printed or submitted, and nothing
    changes; at a negative price nothing is checked: the order for
    [dca_amount / price] shares goes to the broker, and once it is accepted
    the ledger is updated as by any DCA buy. *)
Theorem C5_dca_buy_at_nonpositive_price (w : world) (b : bot) (price : float) :
  ((price =? 0)%float = true ->
     dca_buy w price b = (Raises ZeroDivisionError, b)) /\
  ((price <? 0)%float = true ->
     orders (snd (dca_buy w price b))
       = orders b ++ [dca_order (dca_amount / price)] /\
     forall l id,
       stores (data b) l ->
       submit_order w (dca_order (dca_amount / price)) = Returns id ->
       fst (dca_buy w price b) = Returns true /\
       stores (data (snd (dca_buy w price b))) (after_dca_buy price l)).
Proof.
  split.
  - intros Hzero. unfold dca_buy, bind, raise. by rewrite Hzero.
  - intros Hneg. apply float_neg_nonzero in Hneg. split.
    + set (os := orders b ++ [dca_order (dca_amount / price)]).
      destruct (orders_ignores os) as (Hp & Hf & Hs).
      change (wp (dca_buy w price) (fun _ s => orders s = os) b).
      unfold dca_buy. rewrite Hneg. repeat wp_step.
      destruct (submit_order w (dca_order (dca_amount / price))) as [id|e];
        cbn [wp_next wp_handle]; [|by repeat wp_step].
      apply wp_hoare with (P := fun s => orders s = os)
                          (R := fun s => orders s = os);
        [| done
         | intros [r|e] s Hs'; cbn [wp_handle]; [done | by repeat wp_step]].
      unfold record_trade. keeps_tac; intros; by apply Hs.
    + intros l id Hl Hsub. by apply dca_buy_ok with (id := id).
Qed.

(** The prices 0.00 and -1.00. *)
Lemma C5_at_zero_and_below :
  dca_buy negative_world 0%float pending_bot
    = (Raises ZeroDivisionError, pending_bot) /\
  orders (snd (dca_buy negative_world (-1.0)%float pending_bot))
    = orders pending_bot ++ [dca_order (dca_amount / (-1.0))].
Proof.
  split.
  - apply (proj1 (C5_dca_buy_at_nonpositive_price
                    negative_world pending_bot 0%float)).
    reflexivity.
  - apply (proj2 (C5_dca_buy_at_nonpositive_price
                    negative_world pending_bot (-1.0)%float)).
    reflexivity.
Defined.

(** * Further properties of the methods *)

(** ** Python arithmetic on floats *)

Lemma float_of_int_100 : Py.float_of_int 100 = Returns 100%float.
Proof. reflexivity. Qed.

Lemma py_mul_float x y :
  Py.mul (PFloat x) (PFloat y) = Returns (PFloat (x * y)%float).
Proof. reflexivity. Qed.

Lemma py_sub_float x y :
  Py.sub (PFloat x) (PFloat y) = Returns (PFloat (x - y)%float).
Proof. reflexivity. Qed.

Lemma py_mul_float_100 x :
  Py.mul (PFloat x) (PInt 100) = Returns (PFloat (x * 100)%float).
Proof. reflexivity. Qed.

Lemma py_truediv_float x y :
  Py.truediv (PFloat x) (PFloat y) =
    if (y =? 0)%float then Raises ZeroDivisionError
    else Returns (PFloat (x / y)%float).
Proof. reflexivity. Qed.


(** ** What the methods do to a well-formed ledger *)

(** Steps through a method on a ledger of floats, splitting on the tests. *)
Ltac wp_float_step :=
  first
    [ wp_step
    | progress simpl_map
    | progress rewrite ?py_mul_float, ?py_sub_float, ?py_mul_float_100,
                       ?py_truediv_float
    | progress cbn [wp_next wp_handle data file stdout orders
                    set_data set_file add_line add_order
                    Py.add Py.arith Py.as_num Py.to_float obind
                    Py.gt Py.lt Py.compare_with Py.truthy Py.format_f
                    py_option negb fst snd]
    | lazymatch goal with
      | |- wp (if ?c then _ else _) _ _ => destruct c eqn:?
      | |- wp_next _ _ (if ?c then _ else _) _ => destruct c eqn:?
      end ].

Ltac wp_float := repeat wp_float_step.

Lemma sound_reference d l :
  sound d l ->
  waiting_for_dca l = false \/
  exists reference,
    waiting_for_dca l = true /\ last_single_share_price l = Some reference.
Proof.
  intros [_ Href]. destruct (waiting_for_dca l); [right | by left].
  destruct (Href eq_refl) as [reference ->]. by exists reference.
Qed.

(** On a sound ledger the block that shows the position returns, or raises
    [ZeroDivisionError] at the percentage of a position with nothing
    invested. *)
Lemma show_position_sound price b l :
  sound (data b) l ->
  fst (show_position price b) = Returns tt \/
  fst (show_position price b) = Raises ZeroDivisionError.
Proof.
  intros Hsound. pose proof Hsound as [Hl _]. use_stores Hl.
  change (wp (show_position price)
            (fun o _ => o = Returns tt \/ o = Raises ZeroDivisionError) b).
  unfold show_position.
  destruct (sound_reference _ _ Hsound) as [Hw | (R & Hw & HR)];
    rewrite Hw in Hwaiting; [|rewrite HR in Hprice].
  all: wp_float.
  all: auto.
Qed.

Lemma wp_show_position_sound price b l (Q : outcome unit -> bot -> Prop) :
  sound (data b) l ->
  (forall o b',
     o = Returns tt \/ o = Raises ZeroDivisionError ->
     data b' = data b -> file b' = file b -> orders b' = orders b ->
     Q o b') ->
  wp (show_position price) Q b.
Proof.
  intros Hsound HQ. unfold wp.
  assert (keeps (fun s => data s = data b /\ file s = file b /\
                          orders s = orders b) (show_position price)) as Hkeep.
  { apply keeps_show_position. by intros s ln. }
  destruct (Hkeep b) as (Hd & Hf & Ho); [done|].
  apply HQ; [by apply show_position_sound with (l := l) | done..].
Qed.

Lemma buy_single_share_stores w price b l :
  stores (data b) l ->
  fst (buy_single_share w price b) = Returns (accepted w single_share_order) /\
  orders (snd (buy_single_share w price b))
    = orders b ++ [single_share_order] /\
  if accepted w single_share_order
  then stores (data (snd (buy_single_share w price b)))
              (after_unit_buy price l) /\
       file (snd (buy_single_share w price b))
         = JsonObject (data (snd (buy_single_share w price b)))
  else same_ledger b (snd (buy_single_share w price b)).
Proof.
  intros Hl. unfold accepted.
  destruct (submit_order w single_share_order) as [id|e] eqn:Hsub.
  - use_stores Hl.
    change (wp (buy_single_share w price)
              (fun o b' =>
                 o = Returns true /\
                 orders b' = orders b ++ [single_share_order] /\
                 stores (data b') (after_unit_buy price l) /\
                 file b' = JsonObject (data b')) b).
    unfold buy_single_share. wp_run. rewrite Hsub. wp_run.
    repeat split; cbn; by simpl_map.
  - by rewrite (buy_single_share_refused w price b e Hsub).
Qed.

Lemma dca_buy_stores w price b l :
  stores (data b) l ->
  (price =? 0)%float = false ->
  fst (dca_buy w price b)
    = Returns (accepted w (dca_order (dca_amount / price))) /\
  orders (snd (dca_buy w price b))
    = orders b ++ [dca_order (dca_amount / price)] /\
  if accepted w (dca_order (dca_amount / price))
  then stores (data (snd (dca_buy w price b))) (after_dca_buy price l) /\
       file (snd (dca_buy w price b))
         = JsonObject (data (snd (dca_buy w price b)))
  else same_ledger b (snd (dca_buy w price b)).
Proof.
  intros Hl Hprice0. unfold accepted.
  destruct (submit_order w (dca_order (dca_amount / price))) as [id|e] eqn:Hsub.
  - use_stores Hl.
    change (wp (dca_buy w price)
              (fun o b' =>
                 o = Returns true /\
                 orders b' = orders b ++ [dca_order (dca_amount / price)] /\
                 stores (data b') (after_dca_buy price l) /\
                 file b' = JsonObject (data b')) b).
    unfold dca_buy. rewrite Hprice0. wp_run. rewrite Hsub. wp_run.
    repeat split; cbn; by simpl_map.
  - rewrite (dca_buy_refused w price b e Hsub), Hprice0. by repeat split.
Qed.

Lemma dca_buy_zero_price w price b :
  (price =? 0)%float = true ->
  dca_buy w price b = (Raises ZeroDivisionError, b).
Proof. intros Hzero. unfold dca_buy, bind, raise. by rewrite Hzero. Qed.

(** After the gate the file holds the dict, or neither has changed. *)
Lemma check_daily_trade_limit_file w b :
  same_ledger b (snd (check_daily_trade_limit w b)) \/
  file (snd (check_daily_trade_limit w b))
    = JsonObject (data (snd (check_daily_trade_limit w b))).
Proof.
  rewrite check_daily_trade_limit_eq.
  destruct (data b !! "last_trade_date") as [last|]; [|by left].
  destruct (Py.ne_str last (today w)); [by right|].
  destruct (data b !! "trades_today") as [n|]; [|by left].
  destruct (Py.ge n (PInt 2)); by left.
Qed.

Lemma sound_at_gate w d l :
  stores d (at_gate w l) ->
  (waiting_for_dca l = true -> is_Some (last_single_share_price l)) ->
  sound d (at_gate w l).
Proof.
  intros Hd Href. split; [done|].
  destruct (at_gate_fields w l) as (-> & _ & _ & ->). exact Href.
Qed.

Lemma ledger_file_trans b b1 s :
  same_ledger b b1 \/ file b1 = JsonObject (data b1) ->
  same_ledger b1 s ->
  same_ledger b s \/ file s = JsonObject (data s).
Proof.
  intros [[Hd Hf] | Hfile] [Hd' Hf'].
  - left. split; congruence.
  - right. congruence.
Qed.

Lemma run_on_sound_ledger w b l :
  sound (data b) l ->
  sound (data (snd (run w b))) (next_ledger w l) /\
  (same_ledger b (snd (run w b)) \/
   file (snd (run w b)) = JsonObject (data (snd (run w b)))) /\
  run_outcome w (fst (run w b)).
Proof.
  intros Hsound. pose proof Hsound as [Hl Href].
  change (wp (run w)
            (fun o b' =>
               sound (data b') (next_ledger w l) /\
               (same_ledger b b' \/ file b' = JsonObject (data b')) /\
               run_outcome w o) b).
  unfold run, get_balance, get_price, next_ledger.
  destruct (get_account w) as [balance|e] eqn:Hacc;
    [|repeat wp_step; split; [done | split; [by left | cbn; auto]]].
  destruct (get_latest_quote w) as [q|e] eqn:Hq;
    [|repeat wp_step; split; [done | split; [by left | cbn; auto]]].
  cbv zeta. set (price := ask_or_bid q). set (g := at_gate w l).
  repeat wp_step. fold price.
  apply wp_intro.
  lazymatch goal with
  | |- context [check_daily_trade_limit w ?s] => set (b0 := s)
  end.
  destruct (check_daily_trade_limit_stores w b0 l Hl) as (-> & Hg & _ & _).
  pose proof (check_daily_trade_limit_file w b0) as Hfile.
  change (same_ledger b0 ?s) with (same_ledger b s) in Hfile.
  set (b1 := snd (check_daily_trade_limit w b0)) in *. fold g in Hg |- *.
  pose proof (sound_at_gate w _ l Hg Href) as Hsg. fold g in Hsg.
  assert (Hquiet : forall (o : outcome unit) s,
            same_ledger b1 s ->
            (o = Returns tt \/ o = Raises ZeroDivisionError) ->
            sound (data s) g /\
            (same_ledger b s \/ file s = JsonObject (data s)) /\
            run_outcome w o).
  { intros o s Hs Ho. split; [by rewrite (proj1 Hs)|].
    split; [by apply ledger_file_trans with b1|].
    destruct Ho as [-> | ->]; cbn; auto. }
  destruct (2 <=? trades_today g) eqn:Hlim; cbn [wp_next negb fst snd].
  { repeat wp_step.
    lazymatch goal with
    | |- _ /\ (same_ledger _ ?s \/ _) /\ run_outcome _ ?o =>
        apply (Hquiet o s); [by split | by left]
    end. }
  pose proof Hg as Hg'. use_stores Hg'.
  destruct (sound_reference _ _ Hsg) as [Hw | (R & Hw & HR)];
    rewrite Hw in Hwaiting |- *; [|rewrite HR in Hprice |- *];
    cbn [negb].
  - (* no DCA pending: the unit buy *)
    wp_run. destruct (price <=? balance)%float eqn:Hfund; cbn [andb].
    + wp_step. apply wp_intro.
      lazymatch goal with
      | |- context [buy_single_share w price ?s] =>
          destruct (buy_single_share_stores w price s g Hg) as (-> & _ & Hbuy);
          set (b2 := snd (buy_single_share w price s)) in *
      end.
      destruct (accepted w single_share_order); cbn [wp_next]; wp_step.
      * destruct Hbuy as [Hl2 Hf2].
        apply wp_show_position_sound with (l := after_unit_buy price g);
          [split; [done | by eexists]|].
        intros o s Ho Hd Hf _. rewrite Hd, Hf.
        split; [split; [done | by eexists]|]. split; [by right|].
        destruct Ho as [-> | ->]; cbn; auto.
      * apply wp_show_position_sound with (l := g);
          [destruct Hbuy as [Hd2 _]; cbn in Hd2; by rewrite Hd2|].
        intros o s Ho Hd Hf _. apply (Hquiet o s); [|done].
        destruct Hbuy as [Hd2 Hf2]. cbn in Hd2, Hf2. split; congruence.
    + repeat wp_step. apply wp_show_position_sound with (l := g); [done|].
      intros o s Ho Hd Hf _. apply (Hquiet o s); [by split | done].
  - (* a DCA is pending *)
    wp_run. destruct (price <? R)%float eqn:Hdrop; cbn [andb].
    + wp_run. destruct (dca_amount <=? balance)%float eqn:Hfund; cbn [andb].
      * wp_step. apply wp_intro.
        destruct (price =? 0)%float eqn:Hzero; cbn [negb andb].
        { rewrite dca_buy_zero_price by done. cbn [wp_next fst snd].
          lazymatch goal with
          | |- _ /\ (same_ledger _ ?s \/ _) /\ run_outcome _ ?o =>
              apply (Hquiet o s); [by split | by right]
          end. }
        lazymatch goal with
        | |- context [dca_buy w price ?s] =>
            destruct (dca_buy_stores w price s g Hg Hzero) as (-> & _ & Hbuy);
            set (b2 := snd (dca_buy w price s)) in *
        end.
        destruct (accepted w (dca_order (dca_amount / price))); cbn [wp_next].
        { destruct Hbuy as [Hl2 Hf2]. use_stores Hl2. repeat wp_step.
          apply wp_show_position_sound
            with (l := reset_cycle (after_dca_buy price g)).
          { split; [|done]. repeat split; cbn; by simpl_map. }
          intros o s Ho Hd Hf _. rewrite Hd, Hf. cbn.
          split; [split; [|done]; repeat split; cbn; by simpl_map|].
          split; [by right|].
          destruct Ho as [-> | ->]; cbn; auto. }
        wp_step.
        apply wp_show_position_sound with (l := g);
          [destruct Hbuy as [Hd2 _]; cbn in Hd2; by rewrite Hd2|].
        intros o s Ho Hd Hf _. apply (Hquiet o s); [|done].
        destruct Hbuy as [Hd2 Hf2]. cbn in Hd2, Hf2. split; congruence.
      * repeat wp_step. apply wp_show_position_sound with (l := g); [done|].
        intros o s Ho Hd Hf _. apply (Hquiet o s); [by split | done].
    + wp_run. apply wp_show_position_sound with (l := g); [done|].
      intros o s Ho Hd Hf _. apply (Hquiet o s); [by split | done].
Qed.

(** ** The main cycle on a sound ledger *)

Lemma load_data_stored d l : stores d l -> load_data (JsonObject d) = d.
Proof.
  intros Hl. use_stores Hl. unfold load_data, setdefault.
  by rewrite Htrades, Hdate.
Qed.

(** X2: on a sound ledger [run] is the step [next_ledger] of the cycle: the
    dict it leaves stores the next ledger, which is sound again. *)
Theorem run_follows_next_ledger (w : world) (b : bot) (l : ledger) :
  sound (data b) l ->
  sound (data (snd (run w b))) (next_ledger w l).
Proof. intros Hsound. by apply run_on_sound_ledger. Qed.

(** From the zero state, with 100.00 and a quote of 5.00: the first share. *)
Lemma run_follows_next_ledger_first_buy :
  sound (data (snd (run quiet_world (__init__ NoFile))))
        (next_ledger quiet_world zero_ledger) /\
  next_ledger quiet_world zero_ledger =
    {| last_single_share_price := Some 5.0%float;
       total_invested := (0.0 + 5.0)%float; total_shares := (0.0 + 1.0)%float;
       waiting_for_dca := true; trades_today := 1;
       last_trade_date := Some "2024-01-02" |}.
Proof.
  split; [|reflexivity].
  apply (run_follows_next_ledger quiet_world (__init__ NoFile) zero_ledger).
  split; [by repeat split | discriminate].
Defined.

(** X3: on a sound ledger, if a restart would have loaded the dict before a
    call of [run], it would load the dict after it: whatever [run] changes
    in the dict it has written to the file. *)
Theorem run_keeps_restart_safe (w : world) (b : bot) (l : ledger) :
  sound (data b) l ->
  restart_safe b ->
  restart_safe (snd (run w b)).
Proof.
  intros Hsound Hsafe.
  destruct (run_on_sound_ledger w b l Hsound) as ([Hl' _] & Hfile & _).
  unfold restart_safe in *. destruct Hfile as [[Hd Hf] | Hf].
  - by rewrite Hd, Hf.
  - rewrite Hf. by apply load_data_stored with (l := next_ledger w l).
Qed.

Lemma run_keeps_restart_safe_first_buy :
  restart_safe (snd (run quiet_world (__init__ NoFile))).
Proof.
  apply (run_keeps_restart_safe quiet_world (__init__ NoFile) zero_ledger).
  - split; [by repeat split | discriminate].
  - reflexivity.
Defined.

(** X4: on a sound ledger [run] raises nothing but [ZeroDivisionError] and
    what reading the balance or the quote raises; no [KeyError], no
    [TypeError], and nothing the broker raises on an order. *)
Theorem run_raises_on_sound_ledger (w : world) (b : bot) (l : ledger) (e : exn) :
  sound (data b) l ->
  fst (run w b) = Raises e ->
  e = ZeroDivisionError \/
  get_account w = Raises e \/ get_latest_quote w = Raises e.
Proof.
  intros Hsound He.
  destruct (run_on_sound_ledger w b l Hsound) as (_ & _ & Ho).
  by rewrite He in Ho.
Qed.

(** A quote of 0.00 with nothing invested: one share is bought for nothing,
    and the report then divides by the invested amount. *)
Lemma run_raises_after_free_share :
  fst (run free_world (__init__ NoFile)) = Raises ZeroDivisionError /\
  (ZeroDivisionError = ZeroDivisionError \/
   get_account free_world = Raises ZeroDivisionError \/
   get_latest_quote free_world = Raises ZeroDivisionError).
Proof.
  split; [reflexivity|].
  apply (run_raises_on_sound_ledger free_world (__init__ NoFile) zero_ledger).
  - split; [by repeat split | discriminate].
  - reflexivity.
Defined.

(** ** The main loop *)

Lemma main_iteration_run w b :
  fst (main_iteration w b) = Returns tt /\
  same_ledger (snd (run w b)) (snd (main_iteration w b)) /\
  orders (snd (main_iteration w b)) = orders (snd (run w b)).
Proof.
  unfold main_iteration, try_except, bind, print, ret.
  by destruct (run w b) as [[[]|e] s].
Qed.


Lemma at_gate_trades w l :
  0 <= trades_today l <= 2 -> 0 <= trades_today (at_gate w l) <= 2.
Proof. intros H. unfold at_gate. case_decide; simpl; lia. Qed.

Lemma next_ledger_trades w l :
  0 <= trades_today l <= 2 -> 0 <= trades_today (next_ledger w l) <= 2.
Proof.
  intros H. pose proof (at_gate_trades w l H) as Hg. unfold next_ledger.
  destruct (get_account w); [|done]. destruct (get_latest_quote w); [|done].
  cbv zeta. destruct (2 <=? trades_today (at_gate w l)) eqn:Hlim; [done|].
  apply Z.leb_gt in Hlim.
  repeat case_match; simpl; lia.
Qed.

(** X5: a bot started without a usable data file stays in good order through
    any number of turns of the main loop, whatever the market and the broker
    do: its dict stores a sound ledger, between 0 and 2 trades are counted
    for the day, and a restart would load the very dict it has in memory. *)
Theorem in_service_invariant (b : bot) :
  in_service b ->
  exists l, sound (data b) l /\ 0 <= trades_today l <= 2 /\ restart_safe b.
Proof.
  induction 1 as [| | w b _ (l & Hsound & Htrades & Hsafe)].
  - exists zero_ledger. split; [split; [by repeat split | discriminate]|].
    split; [simpl; lia | reflexivity].
  - exists zero_ledger. split; [split; [by repeat split | discriminate]|].
    split; [simpl; lia | reflexivity].
  - destruct (main_iteration_run w b) as (_ & [Hd Hf] & _).
    exists (next_ledger w l). unfold restart_safe. rewrite Hd, Hf.
    split; [by apply run_on_sound_ledger|].
    split; [by apply next_ledger_trades|].
    destruct (run_on_sound_ledger w b l Hsound) as ([Hl' _] & Hfile & _).
    unfold restart_safe in *. destruct Hfile as [[Hd' Hf'] | Hf'].
    + by rewrite Hd', Hf'.
    + rewrite Hf'. by apply load_data_stored with (l := next_ledger w l).
Qed.

(** ** Orders *)

Lemma keeps_orders_after_submit {A} (os : list order) (m : M A) :
  (forall P, ignores_print P -> ignores_file P ->
     (forall key v s, P s -> P (set_data (<[key := v]> (data s)) s)) ->
     keeps P m) ->
  keeps (fun s => orders s = os) m.
Proof. intros Hm. apply Hm; by intros s. Qed.

Lemma buy_single_share_orders w price b :
  orders (snd (buy_single_share w price b)) = orders b ++ [single_share_order].
Proof.
  set (os := orders b ++ [single_share_order]).
  change (wp (buy_single_share w price) (fun _ s => orders s = os) b).
  unfold buy_single_share. repeat wp_step.
  destruct (submit_order w single_share_order) as [id|e];
    cbn [wp_next wp_handle]; [|by repeat wp_step].
  apply wp_hoare with (P := fun s => orders s = os)
                      (R := fun s => orders s = os);
    [| done
     | intros [r|e] s Hs; cbn [wp_handle]; [done | by repeat wp_step]].
  apply keeps_orders_after_submit. intros P Hp Hf Hs.
  unfold record_trade. keeps_tac; intros; by apply Hs.
Qed.

Lemma dca_buy_orders w price b :
  orders (snd (dca_buy w price b)) =
    if (price =? 0)%float then orders b
    else orders b ++ [dca_order (dca_amount / price)].
Proof.
  destruct (price =? 0)%float eqn:Hzero;
    [by rewrite dca_buy_zero_price|].
  set (os := orders b ++ [dca_order (dca_amount / price)]).
  change (wp (dca_buy w price) (fun _ s => orders s = os) b).
  unfold dca_buy. rewrite Hzero. repeat wp_step.
  destruct (submit_order w (dca_order (dca_amount / price))) as [id|e];
    cbn [wp_next wp_handle]; [|by repeat wp_step].
  apply wp_hoare with (P := fun s => orders s = os)
                      (R := fun s => orders s = os);
    [| done
     | intros [r|e] s Hs; cbn [wp_handle]; [done | by repeat wp_step]].
  apply keeps_orders_after_submit. intros P Hp Hf Hs.
  unfold record_trade. keeps_tac; intros; by apply Hs.
Qed.

(** X6: whatever the dict holds, one call of [run] submits at most one
    order, and only one the balance it has just read covers: an order for one
    share when the price is within the balance, or a DCA order for
    [dca_amount / price] shares when [dca_amount] is within the balance. *)
Theorem run_submits_at_most_one_order (w : world) (b : bot) :
  orders (snd (run w b)) = orders b \/
  exists balance q,
    get_account w = Returns balance /\ get_latest_quote w = Returns q /\
    (orders (snd (run w b)) = orders b ++ [single_share_order] /\
     (ask_or_bid q <=? balance)%float = true \/
     orders (snd (run w b))
       = orders b ++ [dca_order (dca_amount / ask_or_bid q)] /\
     (dca_amount <=? balance)%float = true).
Proof.
  set (Q := fun os : list order =>
    os = orders b \/
    exists balance q,
      get_account w = Returns balance /\ get_latest_quote w = Returns q /\
      (os = orders b ++ [single_share_order] /\
       (ask_or_bid q <=? balance)%float = true \/
       os = orders b ++ [dca_order (dca_amount / ask_or_bid q)] /\
       (dca_amount <=? balance)%float = true)).
  change (wp (run w) (fun _ s => Q (orders s)) b).
  unfold run, get_balance, get_price.
  wp_cases fail; [| by left | by left].
  apply wp_intro.
  lazymatch goal with
  | |- context [check_daily_trade_limit w ?s] =>
      destruct (check_daily_trade_limit_congr w s s eq_refl eq_refl)
        as (_ & _ & _ & _ & Ho);
      destruct (check_daily_trade_limit w s) as [[gate|e] s1]
  end; cbn in Ho; cbn [wp_next fst snd]; [|left; exact Ho].
  wp_cases ltac:(idtac; lazymatch goal with
    | |- wp (buy_single_share w ?p) _ ?s =>
        apply wp_intro;
        pose proof (buy_single_share_orders w p s) as Hbuy;
        destruct (buy_single_share w p s) as [[r|e'] s2];
        cbn in Hbuy; cbn [wp_next fst snd]
    | |- wp (dca_buy w ?p) _ ?s =>
        apply wp_intro;
        pose proof (dca_buy_orders w p s) as Hbuy;
        destruct (dca_buy w p s) as [[r|e'] s2];
        cbn in Hbuy; cbn [wp_next fst snd]
    | |- wp (show_position _) _ ?s =>
        apply wp_hoare with (P := fun s' => orders s' = orders s)
                            (R := fun s' => orders s' = orders s);
          [ apply keeps_show_position; by intros ? ?
          | done
          | intros ? ? ->; cbn [orders add_line set_data set_file] ]
    end).
  all: cbn [orders add_line set_data set_file]; unfold Q.
  all: try (destruct (ask_or_bid a0 =? 0)%float).
  all: try rewrite Hbuy; rewrite Ho.
  all: first
    [ by left
    | right; exists a, a0; split; [done|]; split; [done|];
      first [ by left | by right ] ].
Qed.

(** ** What the two buys report *)

(** X7: [buy_single_share] never raises, whatever the dict holds and
    whatever the broker does; and it returns [True] only if the broker took
    the order. *)
Theorem buy_single_share_never_raises (w : world) (price : float) (b : bot) :
  (exists r, fst (buy_single_share w price b) = Returns r) /\
  (fst (buy_single_share w price b) = Returns true ->
   exists id, submit_order w single_share_order = Returns id).
Proof.
  split.
  - unfold buy_single_share, try_except. unfold bind at 1. cbn.
    lazymatch goal with
    | |- context [match ?body with _ => _ end] =>
        destruct body as [[r|e] s]
    end; cbn; eauto.
  - destruct (submit_order w single_share_order) as [id|e] eqn:Hsub; [eauto|].
    by rewrite (buy_single_share_refused w price b e Hsub).
Qed.

(** X8: [dca_buy] raises nothing but [ZeroDivisionError], and that only at a
    price equal to zero and before it has printed, submitted or written
    anything; and it returns [True] only if the broker took the order. *)
Theorem dca_buy_raises_only_at_zero (w : world) (price : float) (b : bot) :
  (forall e, fst (dca_buy w price b) = Raises e ->
     e = ZeroDivisionError /\ (price =? 0)%float = true /\
     snd (dca_buy w price b) = b) /\
  (fst (dca_buy w price b) = Returns true ->
   exists id,
     submit_order w (dca_order (dca_amount / price)) = Returns id).
Proof.
  destruct (price =? 0)%float eqn:Hzero.
  - rewrite dca_buy_zero_price by done. cbn. split; [|done].
    by intros e [= <-].
  - split.
    + intros e. unfold dca_buy, try_except. rewrite Hzero.
      unfold bind at 1. unfold ret at 1. unfold bind at 1. cbn.
      lazymatch goal with
      | |- context [match ?body with _ => _ end] =>
          destruct body as [[r|e'] s]
      end; cbn; discriminate.
    + destruct (submit_order w (dca_order (dca_amount / price)))
        as [id|e] eqn:Hsub; [eauto|].
      by rewrite (dca_buy_refused w price b e Hsub), Hzero.
Qed.

(** X9: when the dict has no [total_invested] and the broker takes the
    order, [buy_single_share] reports a failure all the same: the order is
    out, the reference price is replaced in memory, and neither the other
    fields nor the file are written. *)
Theorem buy_single_share_half_done (w : world) (price : float) (b : bot)
    (id : string) :
  data b !! "total_invested" = None ->
  submit_order w single_share_order = Returns id ->
  buy_single_share w price b =
    (Returns false,
     {| data := <["last_single_share_price" := PFloat price]> (data b);
        file := file b;
        stdout := stdout b ++ [LBuying price; LSingleOrder id;
                               LSingleFailed (KeyError "total_invested")];
        orders := orders b ++ [single_share_order] |}).
Proof.
  intros Hmissing Hsub.
  set (b' := {| data := <["last_single_share_price" := PFloat price]> (data b);
                file := file b;
                stdout := stdout b ++ [LBuying price; LSingleOrder id;
                                       LSingleFailed (KeyError "total_invested")];
                orders := orders b ++ [single_share_order] |}).
  enough (wp (buy_single_share w price)
             (fun o s => o = Returns false /\ s = b') b) as [Ho Hs].
  { destruct (buy_single_share w price b). simpl in *. congruence. }
  unfold buy_single_share. wp_run. rewrite Hsub. wp_run.
  rewrite Hmissing. wp_run. split; [done|].
  unfold b', add_line, set_data, add_order. cbn. by rewrite <- !app_assoc.
Qed.

(** A data file holding the empty object. *)
Lemma buy_single_share_half_done_empty_object :
  buy_single_share quiet_world 5.0%float (__init__ (JsonObject ∅)) =
    (Returns false,
     {| data := <["last_single_share_price" := PFloat 5.0%float]>
                  (data (__init__ (JsonObject ∅)));
        file := file (__init__ (JsonObject ∅));
        stdout := stdout (__init__ (JsonObject ∅))
                    ++ [LBuying 5.0%float; LSingleOrder "order-1";
                        LSingleFailed (KeyError "total_invested")];
        orders := orders (__init__ (JsonObject ∅)) ++ [single_share_order] |}).
Proof.
  apply (buy_single_share_half_done quiet_world 5.0%float
           (__init__ (JsonObject ∅)) "order-1").
  - reflexivity.
  - reflexivity.
Defined.

(** ** Saving and restarting *)



(** ** The gate on a new day *)

(** X11: when the stored date is not today, the gate lets the bot trade and
    leaves the file holding the dict, whatever [trades_today] held before,
    even nothing or something that is not a number. *)
Theorem check_daily_trade_limit_new_day (w : world) (b : bot) (last : pyval) :
  data b !! "last_trade_date" = Some last ->
  Py.ne_str last (today w) = true ->
  fst (check_daily_trade_limit w b) = Returns (true, LTradeMsg false (PInt 0)) /\
  file (snd (check_daily_trade_limit w b))
    = JsonObject (data (snd (check_daily_trade_limit w b))).
Proof.
  intros Hlast Hne. by rewrite check_daily_trade_limit_eq, Hlast, Hne.
Qed.

(** A data file with a count that is not a number, dated the day before. *)
Lemma check_daily_trade_limit_new_day_bad_count :
  fst (check_daily_trade_limit quiet_world
         (__init__ (JsonObject (<["trades_today" := PStr "many"]>
                                  (to_dict pending_ledger)))))
    = Returns (true, LTradeMsg false (PInt 0)) /\
  file (snd (check_daily_trade_limit quiet_world
         (__init__ (JsonObject (<["trades_today" := PStr "many"]>
                                  (to_dict pending_ledger))))))
    = JsonObject (data (snd (check_daily_trade_limit quiet_world
         (__init__ (JsonObject (<["trades_today" := PStr "many"]>
                                  (to_dict pending_ledger))))))).
Proof.
  apply (check_daily_trade_limit_new_day quiet_world
           (__init__ (JsonObject (<["trades_today" := PStr "many"]>
                                    (to_dict pending_ledger))))
           (PStr "2024-01-01")).
  - reflexivity.
  - reflexivity.
Defined.

(** Two turns of the loop: a unit buy, then a DCA buy. *)
Lemma in_service_after_two_turns :
  exists l,
    sound (data (snd (main_iteration dip_world
                        (snd (main_iteration quiet_world (__init__ NoFile))))))
          l /\
    0 <= trades_today l <= 2 /\
    restart_safe (snd (main_iteration dip_world
                         (snd (main_iteration quiet_world (__init__ NoFile))))).
Proof.
  apply (in_service_invariant
           (snd (main_iteration dip_world
                   (snd (main_iteration quiet_world (__init__ NoFile)))))).
  apply in_service_turn, in_service_turn, in_service_no_file.
Defined.

(** ** The position report *)

(** [x > 0] for a float [x], through the exact comparison of a float with an
    integer, is the comparison of floats. *)
Lemma py_gt_float_0_exact x :
  Py.gt (PFloat x) (PInt 0) = Returns (0 <? x)%float.
Proof.
  unfold Py.gt, Py.compare_with, Py.as_num, Py.num_lt, Py.cmp_float_int.
  f_equal. rewrite FloatAxioms.ltb_spec.
  change (FloatOps.Prim2SF 0) with (S754_zero false).
  destruct (FloatOps.Prim2SF x) as [[]|[]| |[] m e]; try reflexivity.
  - (* negative *)
    cbn. destruct (0 <=? e) eqn:He; [|reflexivity].
    apply Z.leb_le in He.
    assert (- Z.pos m * 2 ^ e < 0) as ->%Z.compare_lt_iff; [|done].
    apply Z.mul_neg_pos; [lia | by apply Z.pow_pos_nonneg].
  - (* positive *)
    cbn. destruct (0 <=? e) eqn:He; [|reflexivity].
    apply Z.leb_le in He.
    assert ((Z.pos m * 2 ^ e ?= 0) = Gt) as ->; [|done].
    apply Z.compare_gt_iff, Z.mul_pos_pos; [lia | by apply Z.pow_pos_nonneg].
Qed.

(** X12: on a sound ledger the position report raises exactly when shares
    are held and nothing is invested: the percentage of the profit divides by
    the invested amount.  Otherwise it returns; and in both cases it leaves
    the dict, the file and the orders alone. *)
Theorem show_position_raises_exactly (price : float) (b : bot) (l : ledger) :
  sound (data b) l ->
  fst (show_position price b) =
    (if (0 <? total_shares l)%float && (total_invested l =? 0)%float
     then Raises ZeroDivisionError else Returns tt) /\
  same_ledger b (snd (show_position price b)) /\
  orders (snd (show_position price b)) = orders b.
Proof.
  intros Hsound. split.
  - pose proof Hsound as [Hl _]. use_stores Hl.
    change (wp (show_position price)
              (fun o _ =>
                 o = if (0 <? total_shares l)%float
                        && (total_invested l =? 0)%float
                     then Raises ZeroDivisionError else Returns tt) b).
    unfold show_position.
    destruct (sound_reference _ _ Hsound) as [Hw | (R & Hw & HR)];
      rewrite Hw in Hwaiting; [|rewrite HR in Hprice].
    all: do 4 wp_float_step; rewrite py_gt_float_0_exact; cbn [wp_next].
    all: destruct (0 <? total_shares l)%float eqn:Hheld; cbn [andb];
      [|by wp_step].
    all: pose proof (float_pos_nonzero _ Hheld) as Hnz.
    all: repeat first [rewrite Hnz | wp_float_step].
    all: done.
  - assert (keeps (fun s => data s = data b /\ file s = file b /\
                            orders s = orders b) (show_position price)) as Hkeep.
    { apply keeps_show_position. by intros s ln. }
    destruct (Hkeep b) as (Hd & Hf & Ho); [done|]. by repeat split.
Qed.

(** The state after a share bought for nothing. *)
Lemma show_position_raises_after_free_share :
  fst (show_position 0%float (snd (run free_world (__init__ NoFile)))) =
    (if (0 <? total_shares (next_ledger free_world zero_ledger))%float
        && (total_invested (next_ledger free_world zero_ledger) =? 0)%float
     then Raises ZeroDivisionError else Returns tt) /\
  same_ledger (snd (run free_world (__init__ NoFile)))
    (snd (show_position 0%float (snd (run free_world (__init__ NoFile))))) /\
  orders (snd (show_position 0%float (snd (run free_world (__init__ NoFile)))))
    = orders (snd (run free_world (__init__ NoFile))).
Proof.
  apply (show_position_raises_exactly 0%float
           (snd (run free_world (__init__ NoFile)))
           (next_ledger free_world zero_ledger)).
  split; [by repeat split | by eexists].
Defined.
